(** * ToQen: the queue/token core

    A shallow embedding of the token issuance and queue advancement logic of
    the ToQen hospital queue manager:

    - the tables of [supabase/migrations/20250713131431_sparkling_term.sql]
      (columns, nullability, the UNIQUE constraint on [queue_status], the
      foreign keys and the row-level-security policies);
    - the PL/pgSQL functions [advance_queue], [reset_department_queue] and
      [update_appointment_status] of
      [supabase/migrations/20250715105234_mute_mountain.sql];
    - the client-side booking code of [src/pages/BookAppointment.tsx]
      ([generateTokenNumber], [calculateEstimatedTime], [onSubmit]).

    SQL's NULL is [None]; a WHERE clause or an IF keeps a row (takes the
    branch) only when its condition is [Some true].  The [integer] columns are
    32-bit: arithmetic that leaves the range raises, it does not wrap.
    Failures of the storage itself (network, timeouts) are not part of the
    model: a request fails only for a reason the schema gives. *)

From Stdlib Require Import String ZArith NArith List Bool Lia Sorted Permutation.
Import ListNotations.
Local Open Scope Z_scope.

(** ** SQL values *)

Definition uuid := N.

Module Sql.

(** Three-valued comparison [x = y]. *)
Definition eq {A} (eqb : A -> A -> bool) (x y : option A) : option bool :=
  match x, y with
  | Some a, Some b => Some (eqb a b)
  | _, _ => None
  end.

(** Three-valued [x != y]. *)
Definition neq {A} (eqb : A -> A -> bool) (x y : option A) : option bool :=
  option_map negb (eq eqb x y).

(** Three-valued AND. *)
Definition and (p q : option bool) : option bool :=
  match p, q with
  | Some false, _ => Some false
  | _, Some false => Some false
  | Some true, Some true => Some true
  | _, _ => None
  end.

(** A WHERE clause, or an IF, holds when the condition is TRUE; FALSE and
    NULL both reject. *)
Definition holds (p : option bool) : bool :=
  match p with
  | Some true => true
  | _ => false
  end.

Definition eq_uuid := @eq uuid N.eqb.
Definition eq_int := @eq Z Z.eqb.

(** UPDATE t SET ... WHERE p. *)
Definition update {R} (p : R -> option bool) (set : R -> R) (t : list R) : list R :=
  map (fun r => if holds (p r) then set r else r) t.

(** SELECT ... FROM t WHERE p. *)
Definition select {R} (p : R -> option bool) (t : list R) : list R :=
  filter (fun r => holds (p r)) t.

(** SELECT e INTO v FROM t WHERE p (not STRICT): the first row, or NULL
    when there is none. *)
Definition select_into {R A} (p : R -> option bool) (e : R -> option A)
           (t : list R) : option A :=
  match select p t with
  | r :: _ => e r
  | [] => None
  end.

(** EXISTS (SELECT 1 FROM t WHERE p). *)
Definition exists_ {R} (p : R -> option bool) (t : list R) : bool :=
  existsb (fun r => holds (p r)) t.

End Sql.

(** The range of PostgreSQL's [integer]. *)
Definition int4_min : Z := -2147483648.
Definition int4_max : Z := 2147483647.

Definition in_int4 (z : Z) : bool := (int4_min <=? z) && (z <=? int4_max).

Inductive pg_error :=
| Unauthorized            (* RAISE EXCEPTION 'Unauthorized: Not hospital admin' *)
| integer_out_of_range    (* SQLSTATE 22003 *)
| unique_violation        (* SQLSTATE 23505 *)
| foreign_key_violation   (* SQLSTATE 23503 *)
| row_security_violation  (* SQLSTATE 42501 *)
| not_a_single_row        (* PostgREST PGRST116, from .single() *)
| RangeError.             (* JavaScript: toISOString() of an invalid Date *)

(** [a + b] on [integer]: NULL if an operand is NULL, an error on overflow. *)
Definition int4_add (a b : option Z) : pg_error + option Z :=
  match a, b with
  | Some x, Some y =>
      if in_int4 (x + y) then inr (Some (x + y)) else inl integer_out_of_range
  | _, _ => inr None
  end.

(** ** Schema *)

Inductive appointment_status := waiting | ready | completed | cancelled.

Definition status_eqb (s t : appointment_status) : bool :=
  match s, t with
  | waiting, waiting | ready, ready
  | completed, completed | cancelled, cancelled => true
  | _, _ => false
  end.

Definition eq_status := @Sql.eq appointment_status status_eqb.

Record users_row := {
  u_id : uuid
}.

Record hospitals_row := {
  h_id : uuid;
  admin_id : option uuid
}.

Record departments_row := {
  d_id : uuid;
  d_hospital_id : option uuid;
  avg_time_per_patient : option Z
}.

Record appointments_row := {
  a_id : uuid;
  a_user_id : option uuid;
  a_hospital_id : option uuid;
  a_department_id : option uuid;
  token_number : Z;
  patient_name : string;
  patient_phone : string;
  patient_email : string;
  status : option appointment_status;
  estimated_time : option Z;
  created_at : option Z
}.

Record queue_status_row := {
  q_id : uuid;
  q_hospital_id : option uuid;
  q_department_id : option uuid;
  current_token : option Z;
  total_tokens : option Z;
  updated_at : option Z
}.

Record db := {
  users : list users_row;
  hospitals : list hospitals_row;
  departments : list departments_row;
  queue_status : list queue_status_row;
  appointments : list appointments_row
}.

Definition set_status (s : option appointment_status) (a : appointments_row) :=
  {| a_id := a_id a; a_user_id := a_user_id a; a_hospital_id := a_hospital_id a;
     a_department_id := a_department_id a; token_number := token_number a;
     patient_name := patient_name a; patient_phone := patient_phone a;
     patient_email := patient_email a; status := s;
     estimated_time := estimated_time a; created_at := created_at a |}.

Definition set_queue_status (q : list queue_status_row) (d : db) : db :=
  {| users := users d; hospitals := hospitals d; departments := departments d;
     queue_status := q; appointments := appointments d |}.

Definition set_appointments (a : list appointments_row) (d : db) : db :=
  {| users := users d; hospitals := hospitals d; departments := departments d;
     queue_status := queue_status d; appointments := a |}.

(** ** PL/pgSQL functions

    A function body is a state transformer on the database that may raise.
    The call runs in one transaction: [rpc] keeps the caller's database when
    the body raises. *)

Definition plpgsql (A : Type) : Type := db -> pg_error + (A * db).

Definition ret {A} (a : A) : plpgsql A := fun d => inr (a, d).

Definition raise {A} (e : pg_error) : plpgsql A := fun _ => inl e.

Definition bind {A B} (c : plpgsql A) (k : A -> plpgsql B) : plpgsql B :=
  fun d => match c d with
           | inl e => inl e
           | inr (a, d') => k a d'
           end.

Definition query {A} (f : db -> A) : plpgsql A := fun d => inr (f d, d).

Definition exec (f : db -> db) : plpgsql unit := fun d => inr (tt, f d).

Definition lift {A} (r : pg_error + A) : plpgsql A :=
  fun d => match r with
           | inl e => inl e
           | inr a => inr (a, d)
           end.

Declare Scope plpgsql_scope.
Delimit Scope plpgsql_scope with plpgsql.
Notation "x <- c ;; k" := (bind c (fun x => k))
  (at level 61, c at next level, right associativity) : plpgsql_scope.
Notation "c ;; k" := (bind c (fun _ => k))
  (at level 61, right associativity) : plpgsql_scope.
Notation "'IF' b 'THEN' c 'END_IF' ;; k" :=
  (bind (if b then c else ret tt) (fun _ => k))
  (at level 61, b at next level, c at next level, right associativity) : plpgsql_scope.

Definition rpc {A} (f : plpgsql A) (d : db) : (pg_error + A) * db :=
  match f d with
  | inl e => (inl e, d)
  | inr (a, d') => (inr a, d')
  end.

Section Functions.

(** [auth.uid()]: the caller's identity, NULL when there is none. *)
Variable auth_uid : option uuid.
(** [now()]. *)
Variable now : Z.

(** [department_id = dept_id AND t.hospital_id = f.hospital_id] on a
    [queue_status] row. *)
Definition queue_of (dept_id hospital_id : option uuid) (q : queue_status_row)
  : option bool :=
  Sql.and (Sql.eq_uuid (q_department_id q) dept_id)
          (Sql.eq_uuid (q_hospital_id q) hospital_id).

(** The same on an [appointments] row. *)
Definition appointment_of (dept_id hospital_id : option uuid) (a : appointments_row)
  : option bool :=
  Sql.and (Sql.eq_uuid (a_department_id a) dept_id)
          (Sql.eq_uuid (a_hospital_id a) hospital_id).

(** [EXISTS (SELECT 1 FROM hospitals h
             WHERE h.id = hospital_id AND h.admin_id = auth.uid())]. *)
Definition is_hospital_admin (hospital_id : option uuid) (d : db) : bool :=
  Sql.exists_
    (fun h => Sql.and (Sql.eq_uuid (Some (h_id h)) hospital_id)
                      (Sql.eq_uuid (admin_id h) auth_uid))
    (hospitals d).

Local Open Scope plpgsql_scope.

Definition reset_department_queue (dept_id hospital_id : option uuid) : plpgsql unit :=
  admin <- query (is_hospital_admin hospital_id) ;;
  IF negb admin THEN raise Unauthorized END_IF ;;
  exec (fun d => set_queue_status
    (Sql.update (queue_of dept_id hospital_id)
       (fun q => {| q_id := q_id q; q_hospital_id := q_hospital_id q;
                    q_department_id := q_department_id q;
                    current_token := Some 0; total_tokens := Some 0;
                    updated_at := Some now |})
       (queue_status d)) d) ;;
  exec (fun d => set_appointments
    (Sql.update
       (fun a => Sql.and (appointment_of dept_id hospital_id a)
                         (eq_status (status a) (Some waiting)))
       (set_status (Some cancelled))
       (appointments d)) d) ;;
  ret tt.

Definition advance_queue (dept_id hospital_id : option uuid) : plpgsql (option Z) :=
  admin <- query (is_hospital_admin hospital_id) ;;
  IF negb admin THEN raise Unauthorized END_IF ;;
  current <- query (fun d =>
    Sql.select_into (queue_of dept_id hospital_id) current_token (queue_status d)) ;;
  next_token <- lift (int4_add current (Some 1)) ;;
  exec (fun d => set_queue_status
    (Sql.update (queue_of dept_id hospital_id)
       (fun q => {| q_id := q_id q; q_hospital_id := q_hospital_id q;
                    q_department_id := q_department_id q;
                    current_token := next_token; total_tokens := total_tokens q;
                    updated_at := Some now |})
       (queue_status d)) d) ;;
  exec (fun d => set_appointments
    (Sql.update
       (fun a => Sql.and (Sql.and (appointment_of dept_id hospital_id a)
                                  (Sql.eq_int (Some (token_number a)) next_token))
                         (eq_status (status a) (Some waiting)))
       (set_status (Some ready))
       (appointments d)) d) ;;
  exec (fun d => set_appointments
    (Sql.update
       (fun a => Sql.and (Sql.and (appointment_of dept_id hospital_id a)
                                  (* next_token - 1 stays in range: next_token
                                     is the successor of an integer *)
                                  (Sql.eq_int (Some (token_number a))
                                              (option_map Z.pred next_token)))
                         (eq_status (status a) (Some ready)))
       (set_status (Some completed))
       (appointments d)) d) ;;
  ret next_token.

Definition update_appointment_status (appointment_id_param : option uuid)
           (new_status : option appointment_status) (admin_id_param : option uuid)
  : plpgsql bool :=
  appointment_hospital_id <- query (fun d =>
    Sql.select_into (fun a => Sql.eq_uuid (Some (a_id a)) appointment_id_param)
                    a_hospital_id (appointments d)) ;;
  admin_hospital_id <- query (fun d =>
    Sql.select_into (fun h => Sql.eq_uuid (admin_id h) admin_id_param)
                    (fun h => Some (h_id h)) (hospitals d)) ;;
  if Sql.holds (Sql.neq N.eqb appointment_hospital_id admin_hospital_id)
  then ret false
  else
    exec (fun d => set_appointments
      (Sql.update (fun a => Sql.eq_uuid (Some (a_id a)) appointment_id_param)
                  (set_status new_status)
                  (appointments d)) d) ;;
    ret true.

End Functions.

(** ** The booking client

    [BookAppointment.tsx] talks to the tables through Supabase requests, one
    statement each, run as the signed-in user under the row-level-security
    policies.  An [async] function is the tree of its [await]s: between two
    of them other clients' requests may run. *)

Definition request (X : Type) : Type := db -> (pg_error + X) * db.

Inductive async (A : Type) : Type :=
| Return (a : A)
| Throw (e : pg_error)
| Await {X : Type} (r : request X) (k : pg_error + X -> async A).

Arguments Return {A} a.
Arguments Throw {A} e.
Arguments Await {A X} r k.

Fixpoint then_ {A B} (c : async A) (k : A -> async B) : async B :=
  match c with
  | Return a => k a
  | Throw e => Throw e
  | Await r k' => Await r (fun x => then_ (k' x) k)
  end.

(** try { c } catch (error) { handler } *)
Fixpoint try_catch {A} (c : async A) (handler : pg_error -> async A) : async A :=
  match c with
  | Return a => Return a
  | Throw e => handler e
  | Await r k => Await r (fun x => try_catch (k x) handler)
  end.

(** Running a call to its end with no other client in between. *)
Fixpoint run {A} (c : async A) (d : db) : (pg_error + A) * db :=
  match c with
  | Return a => (inr a, d)
  | Throw e => (inl e, d)
  | Await r k => let (x, d') := r d in run (k x) d'
  end.

(** One request of a pending call. *)
Definition step {A} (c : async A) (d : db) : async A * db :=
  match c with
  | Await r k => let (x, d') := r d in (k x, d')
  | _ => (c, d)
  end.

Declare Scope async_scope.
Delimit Scope async_scope with async.
Notation "x <- 'await' r ;; k" := (Await r (fun x => k))
  (at level 61, r at next level, right associativity) : async_scope.
Notation "x <- c ;; k" := (then_ c (fun x => k))
  (at level 61, c at next level, right associativity) : async_scope.

(** [a || b] on a nullable number: [b] when [a] is null or 0. *)
Definition js_or (a : option Z) (b : Z) : Z :=
  match a with
  | Some x => if x =? 0 then b else x
  | None => b
  end.

(** The largest time value of a JavaScript Date, in milliseconds. *)
Definition max_time_value : Z := 8640000000000000.

Record BookingFormData := {
  hospitalId : uuid;
  departmentId : uuid;
  patientName : string;
  patientPhone : string;
  patientEmail : string
}.

Section Client.

(** The signed-in user; [auth.uid()] of each request. *)
Variable uid : uuid.
(** The clock, in milliseconds. *)
Variable now : Z.

(** Policy "Hospital admins can manage queue status":
    [hospital_id IN (SELECT id FROM hospitals WHERE admin_id = auth.uid())]. *)
Definition manages (hospital : option uuid) (d : db) : bool :=
  is_hospital_admin (Some uid) hospital d.

(** from('queue_status').select(...).eq('hospital_id', h).eq('department_id', p)
    .single(); every row is readable ("Anyone can read queue status"). *)
Definition select_queue_status (h p : uuid) : request queue_status_row :=
  fun d =>
    match Sql.select (queue_of (Some p) (Some h)) (queue_status d) with
    | [q] => (inr q, d)
    | _ => (inl not_a_single_row, d)
    end.

(** from('departments').select('avg_time_per_patient').eq('id', p).single() *)
Definition select_department (p : uuid) : request departments_row :=
  fun d =>
    match Sql.select (fun r => Sql.eq_uuid (Some (d_id r)) (Some p)) (departments d) with
    | [r] => (inr r, d)
    | _ => (inl not_a_single_row, d)
    end.

Definition references {R} (key : R -> uuid) (t : list R) (x : option uuid) : bool :=
  match x with
  | Some v => existsb (fun r => N.eqb (key r) v) t
  | None => true
  end.

(** from('queue_status').insert({hospital_id, department_id, current_token,
    total_tokens}); [id] is the generated key.  The new row has to pass the
    policy "Hospital admins can manage queue status", the primary key,
    UNIQUE(hospital_id, department_id) and the two foreign keys. *)
Definition insert_queue_status (id h p : uuid) (current total : Z) : request unit :=
  fun d =>
    if negb (manages (Some h) d) then (inl row_security_violation, d)
    else if negb (in_int4 current && in_int4 total) then (inl integer_out_of_range, d)
    else if existsb (fun q => N.eqb (q_id q) id) (queue_status d)
            || Sql.exists_ (queue_of (Some p) (Some h)) (queue_status d)
    then (inl unique_violation, d)
    else if negb (references h_id (hospitals d) (Some h)
                  && references d_id (departments d) (Some p))
    then (inl foreign_key_violation, d)
    else (inr tt,
          set_queue_status
            (queue_status d ++
               [{| q_id := id; q_hospital_id := Some h; q_department_id := Some p;
                   current_token := Some current; total_tokens := Some total;
                   updated_at := Some now |}]) d).

(** from('queue_status').update({total_tokens, updated_at}).eq(...).eq(...).
    The only policy for UPDATE is "Hospital admins can manage queue status":
    rows it does not admit are skipped without an error.  A total that does
    not fit the [integer] column is rejected when the request body is read. *)
Definition update_total_tokens (h p : uuid) (total : Z) : request unit :=
  fun d =>
    if negb (in_int4 total) then (inl integer_out_of_range, d)
    else (inr tt,
          set_queue_status
            (Sql.update
               (fun q => Sql.and (queue_of (Some p) (Some h) q)
                                 (Some (manages (q_hospital_id q) d)))
               (fun q => {| q_id := q_id q; q_hospital_id := q_hospital_id q;
                            q_department_id := q_department_id q;
                            current_token := current_token q;
                            total_tokens := Some total;
                            updated_at := Some now |})
               (queue_status d)) d).

(** from('appointments').insert({...}).select().single(), under the policy
    "Patients can create appointments": [user_id = auth.uid()].  The row is
    checked against the primary key and the three foreign keys. *)
Definition insert_appointment (a : appointments_row) : request appointments_row :=
  fun d =>
    if negb (Sql.holds (Sql.eq_uuid (a_user_id a) (Some uid)))
    then (inl row_security_violation, d)
    else if negb (in_int4 (token_number a)) then (inl integer_out_of_range, d)
    else if existsb (fun r => N.eqb (a_id r) (a_id a)) (appointments d)
    then (inl unique_violation, d)
    else if negb (references u_id (users d) (a_user_id a)
                  && references h_id (hospitals d) (a_hospital_id a)
                  && references d_id (departments d) (a_department_id a))
    then (inl foreign_key_violation, d)
    else (inr a, set_appointments (appointments d ++ [a]) d).

Local Open Scope async_scope.

Definition generateTokenNumber (queue_id : uuid) (hospitalId departmentId : uuid)
  : async Z :=
  queue <- await (select_queue_status hospitalId departmentId) ;;
  match queue with
  | inl queueError =>
      inserted <- await (insert_queue_status queue_id hospitalId departmentId 0 1) ;;
      match inserted with
      | inl insertError => Throw insertError
      | inr _ => Return 1
      end
  | inr queueData =>
      let newTokenNumber := js_or (total_tokens queueData) 0 + 1 in
      updated <- await (update_total_tokens hospitalId departmentId newTokenNumber) ;;
      match updated with
      | inl updateError => Throw updateError
      | inr _ => Return newTokenNumber
      end
  end.

(** The estimate is [now] plus the minutes ahead; [toISOString] throws on a
    Date out of range.  (Local-time shifts of [setMinutes] are left out.) *)
Definition calculateEstimatedTime (hospitalId departmentId : uuid) (tokenNumber : Z)
  : async Z :=
  queue <- await (select_queue_status hospitalId departmentId) ;;
  dept <- await (select_department departmentId) ;;
  let currentToken :=
    js_or (match queue with inr q => current_token q | inl _ => None end) 0 in
  let avgTime :=
    js_or (match dept with inr r => avg_time_per_patient r | inl _ => None end) 15 in
  let tokensAhead := Z.max 0 (tokenNumber - currentToken - 1) in
  let estimatedMinutes := tokensAhead * avgTime in
  let estimatedTime := now + estimatedMinutes * 60000 in
  if Z.abs estimatedTime <=? max_time_value
  then Return estimatedTime
  else Throw RangeError.

End Client.

Inductive booking_outcome :=
| login_required                      (* toast.error, navigate('/login') *)
| booked (appointment : appointments_row)  (* toast.success, navigate('/track?...') *)
| booking_failed.                     (* toast.error('Failed to book appointment...') *)

Section Booking.

(** [user] of the auth context. *)
Variable user : option uuid.
Variable now : Z.
(** The keys the database generates for the rows this call inserts. *)
Variables queue_id appointment_id : uuid.

Local Open Scope async_scope.

Definition onSubmit (data : BookingFormData) : async booking_outcome :=
  match user with
  | None => Return login_required
  | Some uid =>
      try_catch
        (tokenNumber <-
           generateTokenNumber uid now queue_id (hospitalId data) (departmentId data) ;;
         estimatedTime <-
           calculateEstimatedTime now (hospitalId data) (departmentId data) tokenNumber ;;
         created <- await (insert_appointment uid
           {| a_id := appointment_id;
              a_user_id := Some uid;
              a_hospital_id := Some (hospitalId data);
              a_department_id := Some (departmentId data);
              token_number := tokenNumber;
              patient_name := patientName data;
              patient_phone := patientPhone data;
              patient_email := patientEmail data;
              status := Some waiting;
              estimated_time := Some estimatedTime;
              created_at := Some now |}) ;;
         match created with
         | inl error => Throw error
         | inr appointment => Return (booked appointment)
         end)
        (fun error => Return booking_failed)
  end.

End Booking.

(** ** Operations and runs

    The calls of the user interface, each run to its end before the next
    starts. *)

Inductive operation :=
| Book (user : option uuid) (now : Z) (queue_id appointment_id : uuid)
       (data : BookingFormData)
| AdvanceQueue (auth_uid : option uuid) (now : Z) (dept_id hospital_id : option uuid)
| ResetQueue (auth_uid : option uuid) (now : Z) (dept_id hospital_id : option uuid).

Definition perform (op : operation) (d : db) : db :=
  match op with
  | Book user now queue_id appointment_id data =>
      snd (run (onSubmit user now queue_id appointment_id data) d)
  | AdvanceQueue auth_uid now dept_id hospital_id =>
      snd (rpc (advance_queue auth_uid now dept_id hospital_id) d)
  | ResetQueue auth_uid now dept_id hospital_id =>
      snd (rpc (reset_department_queue auth_uid now dept_id hospital_id) d)
  end.

Definition perform_all (ops : list operation) (d : db) : db :=
  fold_left (fun d op => perform op d) ops d.

(** [guard] holds of every operation of a run, in the state it starts from. *)
Fixpoint all_along (guard : operation -> db -> bool) (ops : list operation) (d : db)
  : bool :=
  match ops with
  | [] => true
  | op :: rest => guard op d && all_along guard rest (perform op d)
  end.

(** ** A sample hospital

    One hospital (1) administered by user 10, one department (100) with its
    queue row as the seed data initialises it, and a patient (20). *)

Definition sample : db :=
  {| users := [ {| u_id := 10%N |}; {| u_id := 20%N |} ];
     hospitals := [ {| h_id := 1%N; admin_id := Some 10%N |} ];
     departments := [ {| d_id := 100%N; d_hospital_id := Some 1%N;
                         avg_time_per_patient := Some 15 |} ];
     queue_status := [ {| q_id := 1000%N; q_hospital_id := Some 1%N;
                          q_department_id := Some 100%N;
                          current_token := Some 0; total_tokens := Some 0;
                          updated_at := Some 0 |} ];
     appointments := [] |}.

Definition sample_form : BookingFormData :=
  {| hospitalId := 1%N; departmentId := 100%N;
     patientName := "A"; patientPhone := "+15550100"; patientEmail := "a@example.org" |}.

(** The administrator books, calls the next token, resets. *)
Definition book_nth (k : N) : operation :=
  Book (Some 10%N) (Z.of_N k) (2000 + k)%N (3000 + k)%N sample_form.

(** The row [book_nth k] writes when nobody is ahead of its token. *)
Definition booked_row (k : N) (token : Z) (s : appointment_status) : appointments_row :=
  {| a_id := (3000 + k)%N; a_user_id := Some 10%N;
     a_hospital_id := Some 1%N; a_department_id := Some 100%N;
     token_number := token;
     patient_name := "A"; patient_phone := "+15550100";
     patient_email := "a@example.org";
     status := Some s;
     estimated_time := Some (Z.of_N k); created_at := Some (Z.of_N k) |}.

Definition call_next : operation :=
  AdvanceQueue (Some 10%N) 0 (Some 100%N) (Some 1%N).

Definition reset_queue : operation :=
  ResetQueue (Some 10%N) 0 (Some 100%N) (Some 1%N).

(** The department after one booking and one call: token 1 is Ready and
    both counters are 1. *)
Definition first_called : db := perform_all [book_nth 1; call_next] sample.

(** After a second call: token 1 is Completed, the current token is 2, one
    past the total. *)
Definition second_called : db := perform call_next first_called.

(** A booking made then: its token is 2, the current token. *)
Definition late_booking : db := perform (book_nth 2) second_called.

(** The sample hospital with the department's counters at the largest
    [integer]. *)
Definition sample_at_max : db :=
  set_queue_status
    [ {| q_id := 1000%N; q_hospital_id := Some 1%N; q_department_id := Some 100%N;
         current_token := Some int4_max; total_tokens := Some int4_max;
         updated_at := Some 0 |} ]
    sample.

(** Two calls whose requests are interleaved by a schedule. *)
Inductive turn := first_call | second_call.

Fixpoint interleave {A B} (schedule : list turn) (c1 : async A) (c2 : async B) (d : db)
  : async A * async B * db :=
  match schedule with
  | [] => (c1, c2, d)
  | first_call :: rest => let (c1', d') := step c1 d in interleave rest c1' c2 d'
  | second_call :: rest => let (c2', d') := step c2 d in interleave rest c1 c2' d'
  end.

(** ** Vocabulary of the specification *)

(** The caller administers the hospital. *)
Definition administers (caller hospital : option uuid) (d : db) : Prop :=
  exists r u, In r (hospitals d) /\ hospital = Some (h_id r)
              /\ admin_id r = Some u /\ caller = Some u.

(** [q] is the queue record of (hospital, department). *)
Definition queue_row_of (dept_id hospital_id : option uuid) (q : queue_status_row)
  : Prop :=
  exists p h, dept_id = Some p /\ hospital_id = Some h
              /\ q_department_id q = Some p /\ q_hospital_id q = Some h.

(** [a] is an appointment of (hospital, department). *)
Definition appointment_in (dept_id hospital_id : option uuid) (a : appointments_row)
  : Prop :=
  exists p h, dept_id = Some p /\ hospital_id = Some h
              /\ a_department_id a = Some p /\ a_hospital_id a = Some h.

Definition same_department (a b : appointments_row) : Prop :=
  appointment_in (a_department_id a) (a_hospital_id a) b.

(** The counters as a reader of the department's queue record sees them. *)
Definition currentToken (dept_id hospital_id : option uuid) (d : db) : option Z :=
  Sql.select_into (queue_of dept_id hospital_id) current_token (queue_status d).

Definition totalIssued (dept_id hospital_id : option uuid) (d : db) : option Z :=
  Sql.select_into (queue_of dept_id hospital_id) total_tokens (queue_status d).

(** UNIQUE(hospital_id, department_id) on [queue_status]. *)
Definition queue_keys_unique (d : db) : Prop :=
  forall dept_id hospital_id,
    (length (Sql.select (queue_of dept_id hospital_id) (queue_status d)) <= 1)%nat.

(** [currentToken <= totalIssued] on every queue record. *)
Definition counters_ordered (d : db) : Prop :=
  forall q, In q (queue_status d) ->
    exists c t, current_token q = Some c /\ total_tokens q = Some t /\ c <= t.

Definition terminal (s : option appointment_status) : Prop :=
  s = Some completed \/ s = Some cancelled.

Definition not_cancelled (s : option appointment_status) : Prop :=
  s <> Some cancelled.

Definition is_waiting (s : option appointment_status) : Prop :=
  s = Some waiting.

(** No two appointments of one department whose status is in [P] share a
    token number. *)
Definition tokens_unique (P : option appointment_status -> Prop) (d : db) : Prop :=
  forall i j a b,
    nth_error (appointments d) i = Some a ->
    nth_error (appointments d) j = Some b ->
    i <> j ->
    P (status a) -> P (status b) ->
    same_department a b ->
    token_number a <> token_number b.

(** An AdvanceQueue that is called only while tokens are outstanding. *)
Definition below_issued (op : operation) (d : db) : bool :=
  match op with
  | AdvanceQueue _ _ dept_id hospital_id =>
      match currentToken dept_id hospital_id d, totalIssued dept_id hospital_id d with
      | Some c, Some t => c <? t
      | _, _ => false
      end
  | _ => true
  end.

(** A booking whose token, once issued, is what the department's
    [total_tokens] holds. *)
Definition issue_recorded (op : operation) (d : db) : bool :=
  match op with
  | Book (Some uid) now queue_id _ data =>
      match run (generateTokenNumber uid now queue_id
                   (hospitalId data) (departmentId data)) d with
      | (inr n, d') =>
          match totalIssued (Some (departmentId data)) (Some (hospitalId data)) d' with
          | Some t => t =? n
          | None => false
          end
      | (inl _, _) => true
      end
  | _ => true
  end.

Definition no_reset (op : operation) (d : db) : bool :=
  match op with
  | ResetQueue _ _ _ _ => false
  | _ => true
  end.

Definition recorded_no_reset (op : operation) (d : db) : bool :=
  issue_recorded op d && no_reset op d.

(** Every appointment with status in [P] has a queue record of its
    department, and no such record holds a total below its token. *)
Definition tokens_issued (P : option appointment_status -> Prop) (d : db) : Prop :=
  forall a, In a (appointments d) -> P (status a) ->
  forall p h, appointment_in (Some p) (Some h) a ->
    (exists q, In q (queue_status d) /\ queue_row_of (Some p) (Some h) q)
    /\ (forall q, In q (queue_status d) -> queue_row_of (Some p) (Some h) q ->
                  token_number a <= js_or (total_tokens q) 0).

(** [a'] is [a] with, at most, another status, one that is in [P] only if
    the status of [a] was. *)
Definition restatused (P : option appointment_status -> Prop) (a a' : appointments_row)
  : Prop :=
  a_department_id a' = a_department_id a /\ a_hospital_id a' = a_hospital_id a
  /\ token_number a' = token_number a /\ (P (status a') -> P (status a)).

(** [q'] is [q] with other counters, the total kept. *)
Definition recounted (q q' : queue_status_row) : Prop :=
  q_department_id q' = q_department_id q /\ q_hospital_id q' = q_hospital_id q
  /\ total_tokens q' = total_tokens q.

Definition only_advance (op : operation) (d : db) : bool :=
  match op with
  | AdvanceQueue _ _ _ _ => true
  | _ => false
  end.

(** The UNIQUE constraint together with the order of the counters. *)
Definition counters_inv (d : db) : Prop := queue_keys_unique d /\ counters_ordered d.

(** ** Tracking, history and department management

    The rest of the client: [TrackQueue] and [PatientDashboard] read the
    tables, [DepartmentModal] creates, edits and deletes departments, and
    [get_patient_history] lists a patient's appointments. *)

(** A null operand of JavaScript arithmetic counts as 0. *)
Definition js_number (x : option Z) : Z :=
  match x with
  | Some v => v
  | None => 0
  end.

(** ORDER BY created_at DESC: newest first, NULLs before all. *)
Definition newer_or_same (x y : option Z) : bool :=
  match x, y with
  | None, _ => true
  | Some _, None => false
  | Some a, Some b => b <=? a
  end.

Definition newest_first {R} (key : R -> option Z) (x y : R) : Prop :=
  newer_or_same (key x) (key y) = true.

Fixpoint insert_by {R} (key : R -> option Z) (r : R) (t : list R) : list R :=
  match t with
  | [] => [r]
  | r' :: t' =>
      if newer_or_same (key r) (key r') then r :: t else r' :: insert_by key r t'
  end.

(** Rows with equal keys keep the order of the table; SQL leaves theirs
    open. *)
Definition order_by_desc {R} (key : R -> option Z) (t : list R) : list R :=
  fold_right (insert_by key) [] t.

(** A select with the embedded resources [hospital] and [department]: the
    appointment with the rows its two foreign keys point to. *)
Record AppointmentWithDetails := {
  appointment : appointments_row;
  hospital : option hospitals_row;
  department : option departments_row
}.

Definition embed (d : db) (a : appointments_row) : AppointmentWithDetails :=
  {| appointment := a;
     hospital :=
       hd_error (Sql.select (fun h => Sql.eq_uuid (Some (h_id h)) (a_hospital_id a))
                            (hospitals d));
     department :=
       hd_error (Sql.select (fun r => Sql.eq_uuid (Some (d_id r)) (a_department_id a))
                            (departments d)) |}.

(** .in('status', ['waiting', 'ready']) *)
Definition active (a : appointments_row) : bool :=
  match status a with
  | Some waiting | Some ready => true
  | _ => false
  end.

(** The state of the [TrackQueue] page. *)
Record TrackQueueState := {
  tracked : option AppointmentWithDetails;
  queueStatus : option queue_status_row
}.

Inductive status_message :=
| your_turn            (* "It's your turn! Please proceed to the department." *)
| you_are_next         (* "You're next! Please be ready." *)
| approaching          (* "Your turn is approaching. Please be nearby." *)
| in_line (position : Z).  (* `You are #${position} in line. ...` *)

Section Tracking.

(** The signed-in user. *)
Variable uid : uuid.

(** Policies "Patients can read own appointments" and "Hospital admins can
    read their hospital appointments". *)
Definition can_read (d : db) (a : appointments_row) : bool :=
  Sql.holds (Sql.eq_uuid (a_user_id a) (Some uid)) || manages uid (a_hospital_id a) d.

(** from('appointments').select(...).eq('user_id', user.id)
    .in('status', ['waiting', 'ready']).order('created_at', {ascending: false}) *)
Definition select_active_appointments : request (list AppointmentWithDetails) :=
  fun d =>
    (inr (map (embed d)
            (order_by_desc created_at
               (filter (fun a => can_read d a
                                 && Sql.holds (Sql.eq_uuid (a_user_id a) (Some uid))
                                 && active a)
                       (appointments d)))),
     d).

(** from('appointments').select(...).eq('id', appointmentId).single() *)
Definition select_appointment (appointmentId : uuid) : request AppointmentWithDetails :=
  fun d =>
    match filter (fun a => can_read d a && N.eqb (a_id a) appointmentId)
                 (appointments d) with
    | [a] => (inr (embed d a), d)
    | _ => (inl not_a_single_row, d)
    end.

End Tracking.

Local Open Scope async_scope.

(** [PatientDashboard]: the new value of [activeAppointments]. *)
Definition fetchActiveAppointments (user : option uuid)
           (activeAppointments : list AppointmentWithDetails)
  : async (list AppointmentWithDetails) :=
  match user with
  | None => Return activeAppointments
  | Some uid =>
      fetched <- await (select_active_appointments uid) ;;
      match fetched with
      | inl error => Return activeAppointments
      | inr data => Return data
      end
  end.

(** [TrackQueue]: a PGRST116 error (no single row) clears the queue status;
    without both ids nothing is fetched. *)
Definition fetchQueueStatus (hospitalId departmentId : option uuid) (s : TrackQueueState)
  : async TrackQueueState :=
  match hospitalId, departmentId with
  | Some h, Some p =>
      fetched <- await (select_queue_status h p) ;;
      match fetched with
      | inl not_a_single_row => Return {| tracked := tracked s; queueStatus := None |}
      | inl _ => Return s
      | inr data => Return {| tracked := tracked s; queueStatus := Some data |}
      end
  | _, _ => Return s
  end.

Definition fetchAppointmentDetails (uid appointmentId : uuid) (s : TrackQueueState)
  : async TrackQueueState :=
  fetched <- await (select_appointment uid appointmentId) ;;
  match fetched with
  | inl error => Return s
  | inr data =>
      fetchQueueStatus (a_hospital_id (appointment data))
                       (a_department_id (appointment data))
                       {| tracked := Some data; queueStatus := queueStatus s |}
  end.

(** ... .order('created_at', {ascending: false}).limit(1).maybeSingle() *)
Definition fetchLatestAppointment (user : option uuid) (s : TrackQueueState)
  : async TrackQueueState :=
  match user with
  | None => Return s
  | Some uid =>
      fetched <- await (select_active_appointments uid) ;;
      match fetched with
      | inl error => Return s
      | inr rows =>
          match hd_error rows with
          | Some data =>
              fetchQueueStatus (a_hospital_id (appointment data))
                               (a_department_id (appointment data))
                               {| tracked := Some data; queueStatus := queueStatus s |}
          | None => Return s
          end
      end
  end.

(** The Refresh button of the page. *)
Definition handleRefresh (s : TrackQueueState) : async TrackQueueState :=
  match tracked s with
  | Some a =>
      fetchQueueStatus (a_hospital_id (appointment a)) (a_department_id (appointment a)) s
  | None => Return s
  end.

Definition getQueuePosition (s : TrackQueueState) : Z :=
  match tracked s, queueStatus s with
  | Some a, Some q =>
      Z.max 0 (token_number (appointment a) - js_number (current_token q))
  | _, _ => 0
  end.

(** [None] is the TypeError of reading a field of a null [department]. *)
Definition getEstimatedWaitTime (s : TrackQueueState) : option Z :=
  match tracked s, queueStatus s with
  | Some a, Some q =>
      match department a with
      | Some r => Some (getQueuePosition s * js_or (avg_time_per_patient r) 15)
      | None => None
      end
  | _, _ => Some 0
  end.

Definition getStatusMessage (s : TrackQueueState) : status_message :=
  let position := getQueuePosition s in
  if position =? 0 then your_turn
  else if position =? 1 then you_are_next
  else if position <=? 2 then approaching
  else in_line position.

(** *** DepartmentModal *)

Record DepartmentFormData := {
  name : string;
  avgTimePerPatient : Z
}.

Inductive modal_outcome :=
| department_updated   (* toast.success('Department updated successfully') *)
| department_created   (* toast.success('Department created successfully') *)
| save_failed          (* toast.error('Failed to save department') *)
| department_deleted   (* toast.success('Department deleted successfully') *)
| delete_failed        (* toast.error('Failed to delete department') *)
| nothing_done.        (* no department, or the confirm dialog dismissed *)

Section Departments.

Variable uid : uuid.
Variable now : Z.

(** from('departments').insert({hospital_id, name, avg_time_per_patient})
    .select().single(), under "Hospital admins can manage departments".  The
    [name] column is not among the modelled columns. *)
Definition insert_department (id h : uuid) (avg : Z) : request departments_row :=
  fun d =>
    if negb (manages uid (Some h) d) then (inl row_security_violation, d)
    else if negb (in_int4 avg) then (inl integer_out_of_range, d)
    else if existsb (fun r => N.eqb (d_id r) id) (departments d)
    then (inl unique_violation, d)
    else if negb (references h_id (hospitals d) (Some h))
    then (inl foreign_key_violation, d)
    else
      let r := {| d_id := id; d_hospital_id := Some h;
                  avg_time_per_patient := Some avg |} in
      (inr r,
       {| users := users d; hospitals := hospitals d;
          departments := departments d ++ [r];
          queue_status := queue_status d; appointments := appointments d |}).

(** from('departments').update({name, avg_time_per_patient}).eq('id', id) *)
Definition update_department (id : uuid) (avg : Z) : request unit :=
  fun d =>
    if negb (in_int4 avg) then (inl integer_out_of_range, d)
    else
      (inr tt,
       {| users := users d; hospitals := hospitals d;
          departments :=
            Sql.update
              (fun r => Sql.and (Sql.eq_uuid (Some (d_id r)) (Some id))
                                (Some (manages uid (d_hospital_id r) d)))
              (fun r => {| d_id := d_id r; d_hospital_id := d_hospital_id r;
                           avg_time_per_patient := Some avg |})
              (departments d);
          queue_status := queue_status d; appointments := appointments d |}).

(** from('departments').delete().eq('id', id).  The rows of [queue_status]
    and [appointments] that reference a deleted department go with it
    (ON DELETE CASCADE). *)
Definition delete_department (id : uuid) : request unit :=
  fun d =>
    let doomed r :=
      Sql.holds (Sql.and (Sql.eq_uuid (Some (d_id r)) (Some id))
                         (Some (manages uid (d_hospital_id r) d))) in
    let gone (x : option uuid) :=
      match x with
      | Some v => existsb (fun r => doomed r && N.eqb (d_id r) v) (departments d)
      | None => false
      end in
    (inr tt,
     {| users := users d; hospitals := hospitals d;
        departments := filter (fun r => negb (doomed r)) (departments d);
        queue_status := filter (fun q => negb (gone (q_department_id q))) (queue_status d);
        appointments :=
          filter (fun a => negb (gone (a_department_id a))) (appointments d) |}).

(** [onSubmit] of the modal: [department] is the one being edited, if any;
    the two ids are the keys generated for the new rows. *)
Definition saveDepartment (department : option departments_row) (hospitalId : uuid)
           (department_id queue_id : uuid) (data : DepartmentFormData)
  : async modal_outcome :=
  try_catch
    (match department with
     | Some edited =>
         updated <- await (update_department (d_id edited) (avgTimePerPatient data)) ;;
         match updated with
         | inl error => Throw error
         | inr _ => Return department_updated
         end
     | None =>
         created <- await (insert_department department_id hospitalId
                                             (avgTimePerPatient data)) ;;
         match created with
         | inl error => Throw error
         | inr newDept =>
             queued <- await (insert_queue_status uid now queue_id hospitalId
                                                  (d_id newDept) 0 0) ;;
             match queued with
             | inl queueError => Throw queueError
             | inr _ => Return department_created
             end
         end
     end)
    (fun error => Return save_failed).

Definition handleDelete (department : option departments_row) (confirmed : bool)
  : async modal_outcome :=
  match department with
  | None => Return nothing_done
  | Some doomed =>
      if negb confirmed then Return nothing_done
      else
        try_catch
          (deleted <- await (delete_department (d_id doomed)) ;;
           match deleted with
           | inl error => Throw error
           | inr _ => Return department_deleted
           end)
          (fun error => Return delete_failed)
  end.

End Departments.

(** *** get_patient_history *)

(** A row of the join; the select list takes [a.id], [h.name], [d.name],
    [a.token_number], [a.status], [a.created_at], [a.estimated_time] of it. *)
Definition history_row : Type := appointments_row * hospitals_row * departments_row.

Definition get_patient_history (patient_id_param : option uuid)
  : plpgsql (list history_row) :=
  query (fun d =>
    firstn 20
      (order_by_desc (fun j : history_row => created_at (fst (fst j)))
         (flat_map
            (fun a =>
               flat_map
                 (fun h =>
                    map (fun p => (a, h, p))
                        (Sql.select
                           (fun p => Sql.eq_uuid (a_department_id a) (Some (d_id p)))
                           (departments d)))
                 (Sql.select (fun h => Sql.eq_uuid (a_hospital_id a) (Some (h_id h)))
                             (hospitals d)))
            (Sql.select (fun a => Sql.eq_uuid (a_user_id a) patient_id_param)
                        (appointments d))))).

Definition history_created (j : history_row) : option Z := created_at (fst (fst j)).



(** The two SELECT ... INTO of [update_appointment_status]. *)
Definition appointment_hospital (appointment_id_param : option uuid) (d : db)
  : option uuid :=
  Sql.select_into (fun a => Sql.eq_uuid (Some (a_id a)) appointment_id_param)
                  a_hospital_id (appointments d).

Definition admin_hospital (admin_id_param : option uuid) (d : db) : option uuid :=
  Sql.select_into (fun h => Sql.eq_uuid (admin_id h) admin_id_param)
                  (fun h => Some (h_id h)) (hospitals d).

(** The row [onSubmit] inserts for token [n] with the estimate [est]. *)
Definition booking_row (uid : uuid) (now : Z) (appointment_id : uuid)
           (data : BookingFormData) (n est : Z) : appointments_row :=
  {| a_id := appointment_id;
     a_user_id := Some uid;
     a_hospital_id := Some (hospitalId data);
     a_department_id := Some (departmentId data);
     token_number := n;
     patient_name := patientName data;
     patient_phone := patientPhone data;
     patient_email := patientEmail data;
     status := Some waiting;
     estimated_time := Some est;
     created_at := Some now |}.

(** The department of the sample after the first call, and a second
    hospital (2) administered by user 11. *)
Definition two_hospitals : db :=
  {| users := users first_called;
     hospitals := hospitals first_called ++ [ {| h_id := 2%N; admin_id := Some 11%N |} ];
     departments := departments first_called;
     queue_status := queue_status first_called;
     appointments := appointments first_called |}.

(** The sample hospital with a Waiting appointment of the patient. *)
Definition patient_waiting : db :=
  perform (Book (Some 20%N) 4 2004%N 3004%N sample_form) sample.

(** * Properties *)

(** ** SQL combinators *)

Lemma holds_and (p q : option bool) :
  Sql.holds (Sql.and p q) = Sql.holds p && Sql.holds q.
Proof. destruct p as [[|]|], q as [[|]|]; reflexivity. Qed.

Lemma holds_eq_uuid (x y : option uuid) :
  Sql.holds (Sql.eq_uuid x y) = true <-> exists v, x = Some v /\ y = Some v.
Proof.
  unfold Sql.eq_uuid, Sql.eq, Sql.holds.
  destruct x as [a|], y as [b|]; split; try discriminate.
  - destruct (N.eqb_spec a b); [subst; eauto | discriminate].
  - intros (v & Ha & Hb). injection Ha as <-. injection Hb as <-.
    now rewrite N.eqb_refl.
  - intros (v & _ & Hb). discriminate.
  - intros (v & Ha & _). discriminate.
  - intros (v & Ha & _). discriminate.
Qed.

Lemma holds_eq_int (x y : option Z) :
  Sql.holds (Sql.eq_int x y) = true <-> exists v, x = Some v /\ y = Some v.
Proof.
  unfold Sql.eq_int, Sql.eq, Sql.holds.
  destruct x as [a|], y as [b|]; split; try discriminate.
  - destruct (Z.eqb_spec a b); [subst; eauto | discriminate].
  - intros (v & Ha & Hb). injection Ha as <-. injection Hb as <-.
    now rewrite Z.eqb_refl.
  - intros (v & _ & Hb). discriminate.
  - intros (v & Ha & _). discriminate.
  - intros (v & Ha & _). discriminate.
Qed.

Lemma holds_eq_status (s : option appointment_status) (t : appointment_status) :
  Sql.holds (eq_status s (Some t)) = true <-> s = Some t.
Proof.
  unfold eq_status, Sql.eq, Sql.holds.
  destruct s as [[]|], t; split; intro H; try reflexivity; discriminate.
Qed.

Lemma queue_of_holds dept_id hospital_id q :
  Sql.holds (queue_of dept_id hospital_id q) = true <-> queue_row_of dept_id hospital_id q.
Proof.
  unfold queue_of, queue_row_of. rewrite holds_and, andb_true_iff, !holds_eq_uuid.
  split.
  - intros [(p & Hq & Hp) (h & Hq' & Hh)]. exists p, h. repeat split; assumption.
  - intros (p & h & -> & -> & Hp & Hh). split; [exists p | exists h]; split; auto.
Qed.

Lemma appointment_of_holds dept_id hospital_id a :
  Sql.holds (appointment_of dept_id hospital_id a) = true
  <-> appointment_in dept_id hospital_id a.
Proof.
  unfold appointment_of, appointment_in. rewrite holds_and, andb_true_iff, !holds_eq_uuid.
  split.
  - intros [(p & Hq & Hp) (h & Hq' & Hh)]. exists p, h. repeat split; assumption.
  - intros (p & h & -> & -> & Hp & Hh). split; [exists p | exists h]; split; auto.
Qed.

Lemma is_hospital_admin_spec caller hospital d :
  is_hospital_admin caller hospital d = true <-> administers caller hospital d.
Proof.
  unfold is_hospital_admin, Sql.exists_, administers. rewrite existsb_exists.
  split.
  - intros (r & Hin & H). rewrite holds_and, andb_true_iff, !holds_eq_uuid in H.
    destruct H as [(v & Hv & ->) (u & Hu & ->)]. injection Hv as <-.
    exists r, u. repeat split; assumption.
  - intros (r & u & Hin & -> & Hu & ->). exists r. split; [assumption|].
    rewrite holds_and, andb_true_iff, !holds_eq_uuid.
    split; [exists (h_id r) | exists u]; split; auto.
Qed.

Lemma nth_error_update {R} (p : R -> option bool) (f : R -> R) (t : list R) (i : nat) :
  nth_error (Sql.update p f t) i =
  option_map (fun r => if Sql.holds (p r) then f r else r) (nth_error t i).
Proof. unfold Sql.update. apply nth_error_map. Qed.

Lemma update_none {R} (p : R -> option bool) (f : R -> R) (t : list R) :
  (forall r, In r t -> Sql.holds (p r) = false) -> Sql.update p f t = t.
Proof.
  intros H. unfold Sql.update. rewrite <- (map_id t) at 2.
  apply map_ext_in. intros r Hr. now rewrite (H r Hr).
Qed.

Lemma select_update {R} (p p' : R -> option bool) (f : R -> R) (t : list R) :
  (forall r, p (f r) = p r) ->
  Sql.select p (Sql.update p' f t) = Sql.update p' f (Sql.select p t).
Proof.
  intros Hp. unfold Sql.select, Sql.update.
  induction t as [|r t IH]; simpl; [reflexivity|].
  assert (E : Sql.holds (p (if Sql.holds (p' r) then f r else r)) = Sql.holds (p r))
    by (destruct (Sql.holds (p' r)); [now rewrite Hp | reflexivity]).
  rewrite E. destruct (Sql.holds (p r)); simpl; now rewrite IH.
Qed.

Lemma db_eta (d : db) :
  {| users := users d; hospitals := hospitals d; departments := departments d;
     queue_status := queue_status d; appointments := appointments d |} = d.
Proof. now destruct d. Qed.

(** ** Running the PL/pgSQL functions *)

Ltac run_plpgsql :=
  unfold rpc, advance_queue, reset_department_queue, update_appointment_status,
         bind, query, exec, lift, ret, raise.

Lemma not_admin caller hospital d :
  ~ administers caller hospital d -> is_hospital_admin caller hospital d = false.
Proof.
  intros H. destruct (is_hospital_admin caller hospital d) eqn:E; [|reflexivity].
  now apply is_hospital_admin_spec in E.
Qed.

Lemma token_clause dept_id hospital_id a n s :
  Sql.holds (Sql.and (Sql.and (appointment_of dept_id hospital_id a)
                              (Sql.eq_int (Some (token_number a)) n))
                     (eq_status (status a) (Some s))) = true
  <-> appointment_in dept_id hospital_id a /\ n = Some (token_number a)
      /\ status a = Some s.
Proof.
  rewrite !holds_and, !andb_true_iff, appointment_of_holds, holds_eq_int, holds_eq_status.
  split.
  - intros [[Ha (v & Hv & Hn)] Hs]. injection Hv as <-. auto.
  - intros (Ha & Hn & Hs). repeat split; auto. exists (token_number a). auto.
Qed.

Lemma waiting_clause dept_id hospital_id a :
  Sql.holds (Sql.and (appointment_of dept_id hospital_id a)
                     (eq_status (status a) (Some waiting))) = true
  <-> appointment_in dept_id hospital_id a /\ status a = Some waiting.
Proof.
  now rewrite holds_and, andb_true_iff, appointment_of_holds, holds_eq_status.
Qed.

Lemma select_none {R} (p : R -> option bool) (t : list R) :
  (forall r, In r t -> Sql.holds (p r) = false) -> Sql.select p t = [].
Proof.
  unfold Sql.select. induction t as [|r t IH]; simpl; intros H; [reflexivity|].
  rewrite (H r (or_introl eq_refl)). apply IH. intros r' Hr'. apply H. now right.
Qed.

(** C8: a caller who does not administer the hospital gets Unauthorized from
    [advance_queue] and from [reset_department_queue], and the database is
    exactly as before the call. *)
Theorem unauthorized_call_rejected caller now dept_id hospital_id d :
  ~ administers caller hospital_id d ->
  rpc (advance_queue caller now dept_id hospital_id) d = (inl Unauthorized, d)
  /\ rpc (reset_department_queue caller now dept_id hospital_id) d
     = (inl Unauthorized, d).
Proof.
  intros H%not_admin. run_plpgsql. now rewrite H.
Qed.


Lemma advance_queue_run caller now dept_id hospital_id d next :
  is_hospital_admin caller hospital_id d = true ->
  int4_add (currentToken dept_id hospital_id d) (Some 1) = inr next ->
  exists d',
    rpc (advance_queue caller now dept_id hospital_id) d = (inr next, d')
    /\ users d' = users d /\ hospitals d' = hospitals d
    /\ departments d' = departments d
    /\ queue_status d' =
       Sql.update (queue_of dept_id hospital_id)
         (fun q => {| q_id := q_id q; q_hospital_id := q_hospital_id q;
                      q_department_id := q_department_id q;
                      current_token := next; total_tokens := total_tokens q;
                      updated_at := Some now |})
         (queue_status d)
    /\ appointments d' =
       Sql.update
         (fun a => Sql.and (Sql.and (appointment_of dept_id hospital_id a)
                                    (Sql.eq_int (Some (token_number a))
                                                (option_map Z.pred next)))
                           (eq_status (status a) (Some ready)))
         (set_status (Some completed))
         (Sql.update
            (fun a => Sql.and (Sql.and (appointment_of dept_id hospital_id a)
                                       (Sql.eq_int (Some (token_number a)) next))
                              (eq_status (status a) (Some waiting)))
            (set_status (Some ready))
            (appointments d)).
Proof.
  intros Hadm Hnext. unfold currentToken in Hnext.
  run_plpgsql. rewrite Hadm. cbn [negb]. rewrite Hnext.
  eexists. split; [reflexivity|]. repeat split.
Qed.

Lemma advance_queue_raises caller now dept_id hospital_id d e :
  is_hospital_admin caller hospital_id d = true ->
  int4_add (currentToken dept_id hospital_id d) (Some 1) = inl e ->
  rpc (advance_queue caller now dept_id hospital_id) d = (inl e, d).
Proof.
  intros Hadm Hnext. unfold currentToken in Hnext.
  run_plpgsql. rewrite Hadm. cbn [negb]. now rewrite Hnext.
Qed.

Lemma reset_department_queue_run caller now dept_id hospital_id d :
  is_hospital_admin caller hospital_id d = true ->
  exists d',
    rpc (reset_department_queue caller now dept_id hospital_id) d = (inr tt, d')
    /\ users d' = users d /\ hospitals d' = hospitals d
    /\ departments d' = departments d
    /\ queue_status d' =
       Sql.update (queue_of dept_id hospital_id)
         (fun q => {| q_id := q_id q; q_hospital_id := q_hospital_id q;
                      q_department_id := q_department_id q;
                      current_token := Some 0; total_tokens := Some 0;
                      updated_at := Some now |})
         (queue_status d)
    /\ appointments d' =
       Sql.update
         (fun a => Sql.and (appointment_of dept_id hospital_id a)
                           (eq_status (status a) (Some waiting)))
         (set_status (Some cancelled))
         (appointments d).
Proof.
  intros Hadm. run_plpgsql. rewrite Hadm. cbn [negb].
  eexists. split; [reflexivity|]. repeat split.
Qed.

Lemma db_ext (d d' : db) :
  users d' = users d -> hospitals d' = hospitals d -> departments d' = departments d ->
  queue_status d' = queue_status d -> appointments d' = appointments d -> d' = d.
Proof. destruct d, d'; simpl; intros; subst; reflexivity. Qed.

(** C7 (amended): when the department has no queue record, [advance_queue]
    called by an administrator raises nothing: it returns NULL and the
    database is unchanged. *)
Theorem advance_queue_without_record caller now dept_id hospital_id d :
  administers caller hospital_id d ->
  (forall q, In q (queue_status d) -> ~ queue_row_of dept_id hospital_id q) ->
  rpc (advance_queue caller now dept_id hospital_id) d = (inr None, d).
Proof.
  intros Hadm%is_hospital_admin_spec Hnone.
  assert (Hq : forall q, In q (queue_status d) ->
                         Sql.holds (queue_of dept_id hospital_id q) = false).
  { intros q Hin. destruct (Sql.holds _) eqn:E; [|reflexivity].
    apply queue_of_holds in E. now apply Hnone in E. }
  assert (Hcur : currentToken dept_id hospital_id d = None).
  { unfold currentToken, Sql.select_into. now rewrite (select_none _ _ Hq). }
  destruct (advance_queue_run caller now dept_id hospital_id d None Hadm)
    as (d' & -> & Hu & Hh & Hd & Hqs & Ha).
  { now rewrite Hcur. }
  f_equal. apply db_ext; try assumption.
  - rewrite Hqs. now apply update_none.
  - rewrite Ha, !update_none; try reflexivity; intros a _;
      (destruct (Sql.holds _) eqn:E; [|reflexivity]);
      apply token_clause in E; destruct E as (_ & E & _); discriminate.
Qed.

Lemma int4_succ c :
  int4_min <= c < int4_max -> int4_add (Some c) (Some 1) = inr (Some (c + 1)).
Proof.
  intros H. unfold int4_add, in_int4.
  destruct (Z.leb_spec int4_min (c + 1)), (Z.leb_spec (c + 1) int4_max);
    simpl; try reflexivity; lia.
Qed.

Lemma currentToken_update dept_id hospital_id p' f t :
  (forall q, queue_of dept_id hospital_id (f q) = queue_of dept_id hospital_id q) ->
  Sql.select_into (queue_of dept_id hospital_id) current_token (Sql.update p' f t) =
  match Sql.select (queue_of dept_id hospital_id) t with
  | q :: _ => current_token (if Sql.holds (p' q) then f q else q)
  | [] => None
  end.
Proof.
  intros Hf. unfold Sql.select_into. rewrite select_update by assumption.
  now destruct (Sql.select _ t).
Qed.


Lemma advance_row dept_id hospital_id c a :
  let a1 :=
    if Sql.holds (Sql.and (Sql.and (appointment_of dept_id hospital_id a)
                                   (Sql.eq_int (Some (token_number a)) (Some (c + 1))))
                          (eq_status (status a) (Some waiting)))
    then set_status (Some ready) a else a in
  let a2 :=
    if Sql.holds (Sql.and (Sql.and (appointment_of dept_id hospital_id a1)
                                   (Sql.eq_int (Some (token_number a1))
                                               (option_map Z.pred (Some (c + 1)))))
                          (eq_status (status a1) (Some ready)))
    then set_status (Some completed) a1 else a1 in
  (appointment_in dept_id hospital_id a -> status a = Some waiting ->
   token_number a = c + 1 -> a2 = set_status (Some ready) a)
  /\ (appointment_in dept_id hospital_id a -> status a = Some ready ->
      token_number a = c -> a2 = set_status (Some completed) a)
  /\ (~ (appointment_in dept_id hospital_id a /\ status a = Some waiting
         /\ token_number a = c + 1) ->
      ~ (appointment_in dept_id hospital_id a /\ status a = Some ready
         /\ token_number a = c) ->
      a2 = a).
Proof.
  intros a1 a2. subst a2 a1.
  destruct (Sql.holds (Sql.and (Sql.and _ (Sql.eq_int _ (Some (c + 1)))) _)) eqn:E1.
  - apply token_clause in E1. destruct E1 as (Hin & Ht & Hs). injection Ht as Ht.
    destruct (Sql.holds (Sql.and (Sql.and _ (Sql.eq_int _ (option_map Z.pred _))) _)) eqn:E2.
    { apply token_clause in E2. destruct E2 as (_ & E2 & _).
      cbn in E2. injection E2 as E2. lia. }
    split; [reflexivity|]. split.
    + intros _ Hs' _. congruence.
    + intros N1 _. exfalso. apply N1. auto.
  - destruct (Sql.holds (Sql.and (Sql.and _ (Sql.eq_int _ (option_map Z.pred _))) _)) eqn:E2.
    + apply token_clause in E2. destruct E2 as (Hin & Ht & Hs).
      cbn [option_map] in Ht. injection Ht as Ht.
      split; [|split].
      * intros _ Hs' _. congruence.
      * reflexivity.
      * intros _ N2. exfalso. apply N2. repeat split; auto. lia.
    + split; [|split].
      * intros Hin Hs Ht. exfalso.
        assert (E : Sql.holds (Sql.and (Sql.and (appointment_of dept_id hospital_id a)
                      (Sql.eq_int (Some (token_number a)) (Some (c + 1))))
                      (eq_status (status a) (Some waiting))) = true)
          by (apply token_clause; rewrite Ht; auto).
        congruence.
      * intros Hin Hs Ht. exfalso.
        assert (E : Sql.holds (Sql.and (Sql.and (appointment_of dept_id hospital_id a)
                      (Sql.eq_int (Some (token_number a))
                                  (option_map Z.pred (Some (c + 1)))))
                      (eq_status (status a) (Some ready))) = true).
        { apply token_clause. cbn [option_map]. rewrite Ht. repeat split; auto.
          f_equal. lia. }
        congruence.
      * reflexivity.
Qed.

Lemma advance_nth dept_id hospital_id c (t : list appointments_row) i a :
  nth_error t i = Some a ->
  let t' :=
    Sql.update
      (fun a => Sql.and (Sql.and (appointment_of dept_id hospital_id a)
                                 (Sql.eq_int (Some (token_number a))
                                             (option_map Z.pred (Some (c + 1)))))
                        (eq_status (status a) (Some ready)))
      (set_status (Some completed))
      (Sql.update
         (fun a => Sql.and (Sql.and (appointment_of dept_id hospital_id a)
                                    (Sql.eq_int (Some (token_number a)) (Some (c + 1))))
                           (eq_status (status a) (Some waiting)))
         (set_status (Some ready)) t) in
  (appointment_in dept_id hospital_id a -> status a = Some waiting ->
   token_number a = c + 1 -> nth_error t' i = Some (set_status (Some ready) a))
  /\ (appointment_in dept_id hospital_id a -> status a = Some ready ->
      token_number a = c -> nth_error t' i = Some (set_status (Some completed) a))
  /\ (~ (appointment_in dept_id hospital_id a /\ status a = Some waiting
         /\ token_number a = c + 1) ->
      ~ (appointment_in dept_id hospital_id a /\ status a = Some ready
         /\ token_number a = c) ->
      nth_error t' i = Some a).
Proof.
  intros Hi t'. subst t'. rewrite !nth_error_update, Hi. cbn [option_map].
  destruct (advance_row dept_id hospital_id c a) as (H1 & H2 & H3).
  split; [|split].
  - intros. f_equal. now apply H1.
  - intros. f_equal. now apply H2.
  - intros. f_equal. now apply H3.
Qed.

Lemma first_selected {R} (p : R -> option bool) (t : list R) r rest :
  Sql.select p t = r :: rest -> In r t /\ Sql.holds (p r) = true.
Proof.
  intros E. apply (filter_In (fun r => Sql.holds (p r))).
  fold (Sql.select p t). rewrite E. now left.
Qed.

Lemma advanced_currentToken dept_id hospital_id now next t c :
  Sql.select_into (queue_of dept_id hospital_id) current_token t = Some c ->
  Sql.select_into (queue_of dept_id hospital_id) current_token
    (Sql.update (queue_of dept_id hospital_id)
       (fun q => {| q_id := q_id q; q_hospital_id := q_hospital_id q;
                    q_department_id := q_department_id q;
                    current_token := next; total_tokens := total_tokens q;
                    updated_at := Some now |}) t) = next.
Proof.
  intros Hcur. rewrite currentToken_update by reflexivity.
  unfold Sql.select_into in Hcur.
  destruct (Sql.select _ t) as [|q rest] eqn:E; [discriminate|].
  apply first_selected in E. destruct E as [_ ->]. reflexivity.
Qed.


Lemma updated_queue_row dept_id hospital_id (f : queue_status_row -> queue_status_row)
      (t : list queue_status_row) i q :
  (forall q, q_department_id (f q) = q_department_id q
             /\ q_hospital_id (f q) = q_hospital_id q) ->
  nth_error t i = Some q ->
  exists q', nth_error (Sql.update (queue_of dept_id hospital_id) f t) i = Some q'
    /\ (queue_row_of dept_id hospital_id q ->
        q' = f q /\ queue_row_of dept_id hospital_id q')
    /\ (~ queue_row_of dept_id hospital_id q -> q' = q).
Proof.
  intros Hf Hi. rewrite nth_error_update, Hi. cbn [option_map].
  eexists. split; [reflexivity|]. split.
  - intros Hq. pose proof Hq as Hq'. apply queue_of_holds in Hq'. rewrite Hq'.
    split; [reflexivity|]. destruct Hq as (p & h & -> & -> & Hp & Hh).
    destruct (Hf q) as [Ep Eh]. exists p, h. rewrite Ep, Eh. auto.
  - intros Hq. destruct (Sql.holds _) eqn:E; [|reflexivity].
    now apply queue_of_holds in E.
Qed.

(** ** AdvanceQueue and ResetQueue *)

(** C4 (amended): for an administrator of the hospital and a queue record
    whose [current_token] is an integer [c] below the largest [integer],
    [advance_queue] returns [c + 1] and stores it as the department's current
    token; a Waiting appointment of the department with token [c + 1] becomes
    Ready, a Ready one with token [c] becomes Completed, every other
    appointment and every other queue record is unchanged. *)
Theorem advance_queue_step caller now dept_id hospital_id d c :
  administers caller hospital_id d ->
  currentToken dept_id hospital_id d = Some c ->
  int4_min <= c < int4_max ->
  exists d',
    rpc (advance_queue caller now dept_id hospital_id) d = (inr (Some (c + 1)), d')
    /\ currentToken dept_id hospital_id d' = Some (c + 1)
    /\ (forall i q, nth_error (queue_status d) i = Some q ->
          exists q', nth_error (queue_status d') i = Some q'
            /\ (queue_row_of dept_id hospital_id q ->
                  current_token q' = Some (c + 1)
                  /\ total_tokens q' = total_tokens q
                  /\ queue_row_of dept_id hospital_id q')
            /\ (~ queue_row_of dept_id hospital_id q -> q' = q))
    /\ (forall i a, nth_error (appointments d) i = Some a ->
          (appointment_in dept_id hospital_id a -> status a = Some waiting ->
           token_number a = c + 1 ->
           nth_error (appointments d') i = Some (set_status (Some ready) a))
          /\ (appointment_in dept_id hospital_id a -> status a = Some ready ->
              token_number a = c ->
              nth_error (appointments d') i = Some (set_status (Some completed) a))
          /\ (~ (appointment_in dept_id hospital_id a /\ status a = Some waiting
                 /\ token_number a = c + 1) ->
              ~ (appointment_in dept_id hospital_id a /\ status a = Some ready
                 /\ token_number a = c) ->
              nth_error (appointments d') i = Some a))
    /\ length (appointments d') = length (appointments d)
    /\ length (queue_status d') = length (queue_status d).
Proof.
  intros Hadm%is_hospital_admin_spec Hcur Hc.
  destruct (advance_queue_run caller now dept_id hospital_id d (Some (c + 1)) Hadm)
    as (d' & Hrun & _ & _ & _ & Hqs & Ha).
  { rewrite Hcur. now apply int4_succ. }
  exists d'. split; [assumption|]. split; [|split; [|split; [|split]]].
  - unfold currentToken in *. rewrite Hqs. now apply advanced_currentToken with (c := c).
  - intros i q Hi. rewrite Hqs.
    destruct (updated_queue_row dept_id hospital_id
                (fun q => {| q_id := q_id q; q_hospital_id := q_hospital_id q;
                             q_department_id := q_department_id q;
                             current_token := Some (c + 1);
                             total_tokens := total_tokens q;
                             updated_at := Some now |})
                (queue_status d) i q) as (q' & Hq' & Hin & Hout);
      [now intros | assumption |].
    exists q'. split; [assumption|]. split; [|assumption].
    intros Hq. destruct (Hin Hq) as [-> Hrow]. now repeat split.
  - intros i a Hi. rewrite Ha. now apply advance_nth.
  - rewrite Ha. unfold Sql.update. now rewrite !length_map.
  - rewrite Hqs. unfold Sql.update. now rewrite !length_map.
Qed.

(** C9: for an administrator of the hospital, [reset_department_queue] sets
    [current_token] and [total_tokens] of the department's queue record to 0
    and turns exactly the Waiting appointments of the department into
    Cancelled; the other appointments and the other queue records are
    unchanged. *)
Theorem reset_department_queue_effect caller now dept_id hospital_id d :
  administers caller hospital_id d ->
  exists d',
    rpc (reset_department_queue caller now dept_id hospital_id) d = (inr tt, d')
    /\ (forall i q, nth_error (queue_status d) i = Some q ->
          exists q', nth_error (queue_status d') i = Some q'
            /\ (queue_row_of dept_id hospital_id q ->
                  current_token q' = Some 0 /\ total_tokens q' = Some 0
                  /\ queue_row_of dept_id hospital_id q')
            /\ (~ queue_row_of dept_id hospital_id q -> q' = q))
    /\ (forall i a, nth_error (appointments d) i = Some a ->
          (appointment_in dept_id hospital_id a -> status a = Some waiting ->
           nth_error (appointments d') i = Some (set_status (Some cancelled) a))
          /\ (~ (appointment_in dept_id hospital_id a /\ status a = Some waiting) ->
              nth_error (appointments d') i = Some a))
    /\ length (appointments d') = length (appointments d)
    /\ length (queue_status d') = length (queue_status d).
Proof.
  intros Hadm%is_hospital_admin_spec.
  destruct (reset_department_queue_run caller now dept_id hospital_id d Hadm)
    as (d' & Hrun & _ & _ & _ & Hqs & Ha).
  exists d'. split; [assumption|]. split; [|split; [|split]].
  - intros i q Hi. rewrite Hqs.
    destruct (updated_queue_row dept_id hospital_id
                (fun q => {| q_id := q_id q; q_hospital_id := q_hospital_id q;
                             q_department_id := q_department_id q;
                             current_token := Some 0; total_tokens := Some 0;
                             updated_at := Some now |})
                (queue_status d) i q) as (q' & Hq' & Hin & Hout);
      [now intros | assumption |].
    exists q'. split; [assumption|]. split; [|assumption].
    intros Hq. destruct (Hin Hq) as [-> Hrow]. now repeat split.
  - intros i a Hi. rewrite Ha, nth_error_update, Hi. cbn [option_map].
    split.
    + intros Hin Hs.
      now rewrite (proj2 (waiting_clause dept_id hospital_id a) (conj Hin Hs)).
    + intros N. destruct (Sql.holds _) eqn:E; [|reflexivity].
      now apply waiting_clause in E.
  - rewrite Ha. unfold Sql.update. now rewrite !length_map.
  - rewrite Hqs. unfold Sql.update. now rewrite !length_map.
Qed.


(** ** The booking client *)

Lemma run_then {A B} (c : async A) (k : A -> async B) d :
  run (then_ c k) d =
  match run c d with
  | (inl e, d') => (inl e, d')
  | (inr a, d') => run (k a) d'
  end.
Proof.
  revert d. induction c as [a|e|X r k' IH]; intros d; cbn [then_ run].
  - reflexivity.
  - reflexivity.
  - destruct (r d) as [x d']. apply IH.
Qed.

Lemma run_try_catch {A} (c : async A) (handler : pg_error -> async A) d :
  run (try_catch c handler) d =
  match run c d with
  | (inl e, d') => run (handler e) d'
  | (inr a, d') => (inr a, d')
  end.
Proof.
  revert d. induction c as [a|e|X r k' IH]; intros d; cbn [try_catch run].
  - reflexivity.
  - reflexivity.
  - destruct (r d) as [x d']. apply IH.
Qed.

Lemma generateTokenNumber_run uid now queue_id h p d :
  run (generateTokenNumber uid now queue_id h p) d =
  match Sql.select (queue_of (Some p) (Some h)) (queue_status d) with
  | [q] =>
      match update_total_tokens uid now h p (js_or (total_tokens q) 0 + 1) d with
      | (inl e, d') => (inl e, d')
      | (inr _, d') => (inr (js_or (total_tokens q) 0 + 1), d')
      end
  | _ =>
      match insert_queue_status uid now queue_id h p 0 1 d with
      | (inl e, d') => (inl e, d')
      | (inr _, d') => (inr 1, d')
      end
  end.
Proof.
  unfold generateTokenNumber, select_queue_status. cbn [run].
  destruct (Sql.select _ (queue_status d)) as [|q [|q' rest]]; cbn [run].
  - destruct (insert_queue_status _ _ _ _ _ _ _ d) as [[e|[]] d']; reflexivity.
  - destruct (update_total_tokens _ _ _ _ _ d) as [[e|[]] d']; reflexivity.
  - destruct (insert_queue_status _ _ _ _ _ _ _ d) as [[e|[]] d']; reflexivity.
Qed.

Lemma calculateEstimatedTime_run now h p n d :
  snd (run (calculateEstimatedTime now h p n) d) = d.
Proof.
  unfold calculateEstimatedTime, select_queue_status, select_department. cbn [run].
  destruct (Sql.select _ (queue_status d)) as [|q [|q' rest]];
    destruct (Sql.select _ (departments d)) as [|r [|r' rest']]; cbn [run];
    match goal with |- context [if ?b then _ else _] => destruct b end; reflexivity.
Qed.

(** The appointment row a booking writes. *)
Lemma onSubmit_run uid now queue_id appointment_id data d :
  exists r d1,
    run (generateTokenNumber uid now queue_id (hospitalId data) (departmentId data)) d
    = (r, d1)
    /\ (perform (Book (Some uid) now queue_id appointment_id data) d = d1
        \/ exists n a,
             r = inr n
             /\ a_hospital_id a = Some (hospitalId data)
             /\ a_department_id a = Some (departmentId data)
             /\ token_number a = n
             /\ status a = Some waiting
             /\ perform (Book (Some uid) now queue_id appointment_id data) d
                = set_appointments (appointments d1 ++ [a]) d1).
Proof.
  unfold perform, onSubmit. rewrite run_try_catch, run_then.
  destruct (run (generateTokenNumber _ _ _ _ _) d) as [[e|n] d1].
  - exists (inl e), d1. split; [reflexivity|]. now left.
  - exists (inr n), d1. split; [reflexivity|].
    rewrite run_then.
    pose proof (calculateEstimatedTime_run now (hospitalId data) (departmentId data) n d1)
      as Hcalc.
    destruct (run (calculateEstimatedTime _ _ _ _) d1) as [[e|est] d2];
      cbn [snd] in Hcalc; subst d2.
    + now left.
    + cbn [run]. unfold insert_appointment.
      repeat match goal with
             | |- context [if ?b then _ else _] => destruct b
             end; cbn [run snd]; try (now left).
      right.
      refine (ex_intro _ n (ex_intro _ _ (conj eq_refl
               (conj _ (conj _ (conj _ (conj _ eq_refl))))))); reflexivity.
Qed.

Lemma js_or_some t : js_or (Some t) 0 = t.
Proof. unfold js_or. destruct (Z.eqb_spec t 0); congruence. Qed.

Lemma exists_select {R} (p : R -> option bool) (t : list R) :
  Sql.exists_ p t = false -> Sql.select p t = [].
Proof.
  unfold Sql.exists_, Sql.select. induction t as [|r t IH]; cbn; [reflexivity|].
  intros H. apply orb_false_iff in H. destruct H as [-> H]. now apply IH.
Qed.

(** What a call of [generateTokenNumber] leaves behind: nothing when it
    throws, the department's record with the new total when there was one
    record, a new record otherwise. *)
Lemma generateTokenNumber_cases uid now queue_id h p d r d1 :
  run (generateTokenNumber uid now queue_id h p) d = (r, d1) ->
  users d1 = users d /\ hospitals d1 = hospitals d /\ departments d1 = departments d
  /\ appointments d1 = appointments d
  /\ ((exists e, r = inl e) /\ queue_status d1 = queue_status d
      \/ (exists q,
            Sql.select (queue_of (Some p) (Some h)) (queue_status d) = [q]
            /\ r = inr (js_or (total_tokens q) 0 + 1)
            /\ queue_status d1 =
               Sql.update
                 (fun q => Sql.and (queue_of (Some p) (Some h) q)
                                   (Some (manages uid (q_hospital_id q) d)))
                 (fun q' => {| q_id := q_id q'; q_hospital_id := q_hospital_id q';
                               q_department_id := q_department_id q';
                               current_token := current_token q';
                               total_tokens := Some (js_or (total_tokens q) 0 + 1);
                               updated_at := Some now |})
                 (queue_status d))
      \/ (Sql.select (queue_of (Some p) (Some h)) (queue_status d) = []
          /\ r = inr 1
          /\ queue_status d1 =
             queue_status d ++
               [{| q_id := queue_id; q_hospital_id := Some h; q_department_id := Some p;
                   current_token := Some 0; total_tokens := Some 1;
                   updated_at := Some now |}])).
Proof.
  rewrite generateTokenNumber_run.
  assert (Hins :
    forall r d1,
      match insert_queue_status uid now queue_id h p 0 1 d with
      | (inl e, d') => (inl e, d')
      | (inr _, d') => (inr 1, d')
      end = (r, d1) ->
      users d1 = users d /\ hospitals d1 = hospitals d /\ departments d1 = departments d
      /\ appointments d1 = appointments d
      /\ ((exists e, r = inl e) /\ queue_status d1 = queue_status d
          \/ (Sql.select (queue_of (Some p) (Some h)) (queue_status d) = []
              /\ r = inr 1
              /\ queue_status d1 =
                 queue_status d ++
                   [{| q_id := queue_id; q_hospital_id := Some h;
                       q_department_id := Some p;
                       current_token := Some 0; total_tokens := Some 1;
                       updated_at := Some now |}]))).
  { clear r d1. intros r d1. unfold insert_queue_status.
    destruct (negb (manages uid (Some h) d));
      [intros [= <- <-]; repeat split; left; split; eauto|].
    destruct (negb (in_int4 0 && in_int4 1));
      [intros [= <- <-]; repeat split; left; split; eauto|].
    destruct (existsb _ (queue_status d)); cbn [orb];
      [intros [= <- <-]; repeat split; left; split; eauto|].
    destruct (Sql.exists_ _ (queue_status d)) eqn:Hex;
      [intros [= <- <-]; repeat split; left; split; eauto|].
    destruct (negb _);
      [intros [= <- <-]; repeat split; left; split; eauto|].
    intros [= <- <-]. repeat split. right. repeat split. now apply exists_select. }
  destruct (Sql.select _ (queue_status d)) as [|q [|q' rest]] eqn:Hsel.
  - intros H. destruct (Hins r d1 H) as (Hu & Hh & Hd & Ha & [Hc|Hc]); auto 10.
  - unfold update_total_tokens.
    destruct (negb (in_int4 _)).
    + intros [= <- <-]. repeat split. left. split; eauto.
    + intros [= <- <-]. repeat split. right. left. exists q. repeat split.
  - intros H. destruct (Hins r d1 H) as (Hu & Hh & Hd & Ha & [Hc|Hc]); auto 10.
Qed.

Lemma all_along_invariant (J : db -> Prop) (guard : operation -> db -> bool) :
  (forall op d, guard op d = true -> J d -> J (perform op d)) ->
  forall ops d, all_along guard ops d = true -> J d -> J (perform_all ops d).
Proof.
  intros Hstep ops. unfold perform_all.
  induction ops as [|op ops IH]; intros d Hg HJ; cbn [fold_left].
  - assumption.
  - cbn [all_along] in Hg. apply andb_true_iff in Hg. destruct Hg as [Hop Hrest].
    apply IH; [assumption|]. now apply Hstep.
Qed.

Lemma rpc_advance_queue_cases caller now dept_id hospital_id d :
  snd (rpc (advance_queue caller now dept_id hospital_id) d) = d
  \/ exists next d',
       is_hospital_admin caller hospital_id d = true
       /\ int4_add (currentToken dept_id hospital_id d) (Some 1) = inr next
       /\ snd (rpc (advance_queue caller now dept_id hospital_id) d) = d'
       /\ users d' = users d /\ hospitals d' = hospitals d
       /\ departments d' = departments d
       /\ queue_status d' =
          Sql.update (queue_of dept_id hospital_id)
            (fun q => {| q_id := q_id q; q_hospital_id := q_hospital_id q;
                         q_department_id := q_department_id q;
                         current_token := next; total_tokens := total_tokens q;
                         updated_at := Some now |})
            (queue_status d)
       /\ appointments d' =
          Sql.update
            (fun a => Sql.and (Sql.and (appointment_of dept_id hospital_id a)
                                       (Sql.eq_int (Some (token_number a))
                                                   (option_map Z.pred next)))
                              (eq_status (status a) (Some ready)))
            (set_status (Some completed))
            (Sql.update
               (fun a => Sql.and (Sql.and (appointment_of dept_id hospital_id a)
                                          (Sql.eq_int (Some (token_number a)) next))
                                 (eq_status (status a) (Some waiting)))
               (set_status (Some ready))
               (appointments d)).
Proof.
  destruct (is_hospital_admin caller hospital_id d) eqn:Hadm.
  - destruct (int4_add (currentToken dept_id hospital_id d) (Some 1)) as [e|next] eqn:Hn.
    + left. now rewrite (advance_queue_raises _ _ _ _ _ _ Hadm Hn).
    + right. destruct (advance_queue_run caller now _ _ _ _ Hadm Hn)
        as (d' & Hrun & H). exists next, d'. rewrite Hrun. auto.
  - left. run_plpgsql. now rewrite Hadm.
Qed.

Lemma rpc_reset_cases caller now dept_id hospital_id d :
  snd (rpc (reset_department_queue caller now dept_id hospital_id) d) = d
  \/ exists d',
       snd (rpc (reset_department_queue caller now dept_id hospital_id) d) = d'
       /\ users d' = users d /\ hospitals d' = hospitals d
       /\ departments d' = departments d
       /\ queue_status d' =
          Sql.update (queue_of dept_id hospital_id)
            (fun q => {| q_id := q_id q; q_hospital_id := q_hospital_id q;
                         q_department_id := q_department_id q;
                         current_token := Some 0; total_tokens := Some 0;
                         updated_at := Some now |})
            (queue_status d)
       /\ appointments d' =
          Sql.update
            (fun a => Sql.and (appointment_of dept_id hospital_id a)
                              (eq_status (status a) (Some waiting)))
            (set_status (Some cancelled))
            (appointments d).
Proof.
  destruct (is_hospital_admin caller hospital_id d) eqn:Hadm.
  - right. destruct (reset_department_queue_run caller now dept_id hospital_id d Hadm)
      as (d' & Hrun & H). exists d'. rewrite Hrun. auto.
  - left. run_plpgsql. now rewrite Hadm.
Qed.

Lemma select_single {R} (p : R -> option bool) (t : list R) q r :
  Sql.select p t = [q] -> In r t -> Sql.holds (p r) = true -> r = q.
Proof.
  intros Hsel Hin Hp.
  assert (H : In r (Sql.select p t)) by (apply filter_In; auto).
  rewrite Hsel in H. destruct H as [H|[]]. now symmetry.
Qed.

Lemma select_at_most_one {R} (p : R -> option bool) (t : list R) q rest r :
  (length (Sql.select p t) <= 1)%nat ->
  Sql.select p t = q :: rest -> In r t -> Sql.holds (p r) = true -> r = q.
Proof.
  intros Hlen Hsel Hin Hp. rewrite Hsel in Hlen.
  destruct rest; [|cbn in Hlen; lia]. eapply select_single; eauto.
Qed.

Lemma in_update {R} (p : R -> option bool) (f : R -> R) (t : list R) r' :
  In r' (Sql.update p f t) ->
  exists r, In r t /\ r' = if Sql.holds (p r) then f r else r.
Proof.
  unfold Sql.update. rewrite in_map_iff. intros (r & <- & Hin). eauto.
Qed.

Lemma select_app {R} (p : R -> option bool) (t u : list R) :
  Sql.select p (t ++ u) = Sql.select p t ++ Sql.select p u.
Proof. apply filter_app. Qed.

Lemma length_update {R} (p : R -> option bool) (f : R -> R) (t : list R) :
  length (Sql.update p f t) = length t.
Proof. apply length_map. Qed.

Lemma queue_keys_unique_update d d' p f :
  (forall q, q_department_id (f q) = q_department_id q
             /\ q_hospital_id (f q) = q_hospital_id q) ->
  queue_status d' = Sql.update p f (queue_status d) ->
  queue_keys_unique d -> queue_keys_unique d'.
Proof.
  intros Hf Hqs Hu dept_id hospital_id. rewrite Hqs, select_update, length_update.
  - apply Hu.
  - intros q. unfold queue_of. destruct (Hf q) as [-> ->]. reflexivity.
Qed.

Lemma counters_inv_book user now queue_id appointment_id data d :
  counters_inv d -> counters_inv (perform (Book user now queue_id appointment_id data) d).
Proof.
  intros [Hu Ho]. destruct user as [uid|]; [|exact (conj Hu Ho)].
  destruct (onSubmit_run uid now queue_id appointment_id data d)
    as (r & d1 & Hgen & Hd').
  apply generateTokenNumber_cases in Hgen.
  destruct Hgen as (_ & _ & _ & _ & Hq).
  assert (H1 : counters_inv d1).
  { destruct Hq as [[_ Hq]|[(q & Hsel & _ & Hq)|(Hsel & _ & Hq)]].
    - split.
      + intros dp hp. rewrite Hq. apply Hu.
      + intros q. rewrite Hq. apply Ho.
    - split.
      + eapply queue_keys_unique_update; [|exact Hq|exact Hu]. now intros.
      + intros q' Hin. rewrite Hq in Hin. apply in_update in Hin.
        destruct Hin as (q0 & Hin & ->).
        destruct (Sql.holds _) eqn:E; [|now apply Ho].
        rewrite holds_and, andb_true_iff in E. destruct E as [E _].
        assert (q0 = q) by (eapply select_single; eauto). subst q0.
        destruct (Ho q Hin) as (c & t & Hc & Ht & Hct).
        exists c, (t + 1). cbn. rewrite Ht, js_or_some. repeat split; auto. lia.
    - split.
      + intros dp hp. rewrite Hq, select_app, length_app.
        unfold Sql.select at 2. cbn [filter].
        destruct (Sql.holds _) eqn:E; cbn [length].
        * apply queue_of_holds in E. destruct E as (p0 & h0 & -> & -> & Hp & Hh).
          cbn in Hp, Hh. injection Hp as Hp. injection Hh as Hh. subst p0 h0.
          rewrite Hsel. cbn. lia.
        * specialize (Hu dp hp). lia.
      + intros q' Hin. rewrite Hq in Hin. apply in_app_or in Hin.
        destruct Hin as [Hin|[<-|[]]]; [now apply Ho|].
        exists 0, 1. cbn. repeat split. lia. }
  destruct H1 as [Hu1 Ho1].
  destruct Hd' as [->|(n & a & _ & _ & _ & _ & _ & ->)]; split; auto.
Qed.

Lemma int4_add_some c next :
  int4_add (Some c) (Some 1) = inr next -> next = Some (c + 1).
Proof.
  unfold int4_add. destruct (in_int4 (c + 1)); [|discriminate]. now intros [= <-].
Qed.

Lemma counters_inv_advance caller now dept_id hospital_id d :
  below_issued (AdvanceQueue caller now dept_id hospital_id) d = true ->
  counters_inv d -> counters_inv (perform (AdvanceQueue caller now dept_id hospital_id) d).
Proof.
  intros Hg [Hu Ho]. cbn [perform].
  destruct (rpc_advance_queue_cases caller now dept_id hospital_id d)
    as [->|(next & d' & _ & Hn & -> & _ & _ & _ & Hq & _)]; [now split|].
  cbn [below_issued] in Hg.
  destruct (currentToken dept_id hospital_id d) as [c|] eqn:Hc; [|discriminate].
  destruct (totalIssued dept_id hospital_id d) as [t|] eqn:Ht; [|discriminate].
  apply Z.ltb_lt in Hg. apply int4_add_some in Hn. subst next.
  split.
  - eapply queue_keys_unique_update; [|exact Hq|exact Hu]. now intros.
  - intros q' Hin. rewrite Hq in Hin. apply in_update in Hin.
    destruct Hin as (q0 & Hin & ->).
    destruct (Sql.holds _) eqn:E; [|now apply Ho].
    unfold currentToken, totalIssued, Sql.select_into in Hc, Ht.
    destruct (Sql.select _ (queue_status d)) as [|q rest] eqn:Hsel; [discriminate|].
    assert (q0 = q) by (eapply select_at_most_one; eauto). subst q0.
    exists (c + 1), t. cbn. repeat split; auto. lia.
Qed.

Lemma counters_inv_reset caller now dept_id hospital_id d :
  counters_inv d -> counters_inv (perform (ResetQueue caller now dept_id hospital_id) d).
Proof.
  intros [Hu Ho]. cbn [perform].
  destruct (rpc_reset_cases caller now dept_id hospital_id d)
    as [->|(d' & -> & _ & _ & _ & Hq & _)]; [now split|].
  split.
  - eapply queue_keys_unique_update; [|exact Hq|exact Hu]. now intros.
  - intros q' Hin. rewrite Hq in Hin. apply in_update in Hin.
    destruct Hin as (q0 & Hin & ->).
    destruct (Sql.holds _) eqn:E; [|now apply Ho].
    exists 0, 0. cbn. repeat split. lia.
Qed.

(** C2 (amended): from a state where [currentToken <= totalIssued] holds on
    every queue record (and the records' keys are unique), the inequality
    holds after every run of bookings, ResetQueue calls and AdvanceQueue
    calls in which AdvanceQueue is only called while
    [currentToken < totalIssued]. *)
Theorem counters_ordered_while_below_issued d0 ops :
  queue_keys_unique d0 ->
  counters_ordered d0 ->
  all_along below_issued ops d0 = true ->
  counters_ordered (perform_all ops d0).
Proof.
  intros Hu Ho Hg.
  apply (all_along_invariant counters_inv below_issued); [|assumption|now split].
  intros [user now q a data|caller now dept_id hospital_id|caller now dept_id hospital_id]
         d Hop HJ.
  - now apply counters_inv_book.
  - now apply counters_inv_advance.
  - now apply counters_inv_reset.
Qed.

Lemma book_keeps_rows user now queue_id appointment_id data d i a :
  nth_error (appointments d) i = Some a ->
  nth_error (appointments (perform (Book user now queue_id appointment_id data) d)) i
  = Some a.
Proof.
  intros Hi. destruct user as [uid|]; [|exact Hi].
  destruct (onSubmit_run uid now queue_id appointment_id data d)
    as (r & d1 & Hgen & Hd').
  apply generateTokenNumber_cases in Hgen.
  destruct Hgen as (_ & _ & _ & Ha & _).
  destruct Hd' as [->|(n & a' & _ & _ & _ & _ & _ & ->)].
  - now rewrite Ha.
  - cbn [appointments set_appointments]. rewrite Ha.
    rewrite nth_error_app1; [assumption|].
    apply nth_error_Some. congruence.
Qed.

Lemma advance_keeps_row caller now dept_id hospital_id d i a :
  nth_error (appointments d) i = Some a ->
  (forall next,
      int4_add (currentToken dept_id hospital_id d) (Some 1) = inr next ->
      ~ (appointment_in dept_id hospital_id a /\ next = Some (token_number a)
         /\ status a = Some waiting)) ->
  status a <> Some ready ->
  nth_error (appointments (perform (AdvanceQueue caller now dept_id hospital_id) d)) i
  = Some a.
Proof.
  intros Hi Hw Hr. cbn [perform].
  destruct (rpc_advance_queue_cases caller now dept_id hospital_id d)
    as [->|(next & d' & _ & Hn & -> & _ & _ & _ & _ & Ha)]; [assumption|].
  rewrite Ha, !nth_error_update, Hi. cbn [option_map].
  destruct (Sql.holds (Sql.and (Sql.and _ (Sql.eq_int _ next)) _)) eqn:E1.
  { apply token_clause in E1. now apply Hw in E1. }
  clear E1. destruct (Sql.holds _) eqn:E2; [|reflexivity].
  apply token_clause in E2. destruct E2 as (_ & _ & E2). contradiction.
Qed.

Lemma reset_keeps_row caller now dept_id hospital_id d i a :
  nth_error (appointments d) i = Some a ->
  status a <> Some waiting ->
  nth_error (appointments (perform (ResetQueue caller now dept_id hospital_id) d)) i
  = Some a.
Proof.
  intros Hi Hw. cbn [perform].
  destruct (rpc_reset_cases caller now dept_id hospital_id d)
    as [->|(d' & -> & _ & _ & _ & _ & Ha)]; [assumption|].
  rewrite Ha, nth_error_update, Hi. cbn [option_map].
  destruct (Sql.holds _) eqn:E; [|reflexivity].
  apply waiting_clause in E. destruct E as [_ E]. contradiction.
Qed.

(** C5 (amended): no run of bookings, AdvanceQueue and ResetQueue calls
    changes an appointment whose status is Completed or Cancelled. *)
Theorem terminal_status_kept ops d i a :
  nth_error (appointments d) i = Some a ->
  terminal (status a) ->
  nth_error (appointments (perform_all ops d)) i = Some a.
Proof.
  intros Hi Ht. revert d Hi. unfold perform_all.
  induction ops as [|op ops IH]; intros d Hi; cbn [fold_left]; [assumption|].
  apply IH.
  destruct op as [user now q ap data|caller now dept_id hospital_id
                 |caller now dept_id hospital_id].
  - now apply book_keeps_rows.
  - apply advance_keeps_row; [assumption| |destruct Ht; congruence].
    intros next _ (_ & _ & Hs). destruct Ht; congruence.
  - apply reset_keeps_row; [assumption|destruct Ht; congruence].
Qed.

Lemma queue_row_of_inj dept_id hospital_id dept_id' hospital_id' q :
  queue_row_of dept_id hospital_id q -> queue_row_of dept_id' hospital_id' q ->
  dept_id' = dept_id /\ hospital_id' = hospital_id.
Proof.
  intros (p & h & -> & -> & Hp & Hh) (p' & h' & -> & -> & Hp' & Hh').
  split; congruence.
Qed.

Lemma appointment_in_inj dept_id hospital_id dept_id' hospital_id' a :
  appointment_in dept_id hospital_id a -> appointment_in dept_id' hospital_id' a ->
  dept_id' = dept_id /\ hospital_id' = hospital_id.
Proof.
  intros (p & h & -> & -> & Hp & Hh) (p' & h' & -> & -> & Hp' & Hh').
  split; congruence.
Qed.

(** A Waiting appointment whose token the counter has passed is out of
    reach of [advance_queue], whatever department it is called for. *)
Lemma passed_token_step caller now dept_id' hospital_id' dept_id hospital_id d i a :
  status a = Some waiting ->
  appointment_in dept_id hospital_id a ->
  (nth_error (appointments d) i = Some a
   /\ exists c, currentToken dept_id hospital_id d = Some c /\ token_number a <= c) ->
  let d' := perform (AdvanceQueue caller now dept_id' hospital_id') d in
  nth_error (appointments d') i = Some a
  /\ exists c, currentToken dept_id hospital_id d' = Some c /\ token_number a <= c.
Proof.
  intros Hs Hin (Hi & c & Hc & Hle) d'. subst d'. split.
  - apply advance_keeps_row; [assumption| |congruence].
    intros next Hn (Hin' & Hnext & _).
    destruct (appointment_in_inj _ _ _ _ _ Hin Hin') as [-> ->].
    rewrite Hc in Hn. apply int4_add_some in Hn. rewrite Hn in Hnext.
    injection Hnext as Hnext. lia.
  - cbn [perform].
    destruct (rpc_advance_queue_cases caller now dept_id' hospital_id' d)
      as [->|(next & d' & _ & Hn & -> & _ & _ & _ & Hq & _)]; [eauto|].
    pose proof Hc as Hc'. unfold currentToken, Sql.select_into in Hc'.
    unfold currentToken at 1. rewrite Hq, currentToken_update by reflexivity.
    destruct (Sql.select _ (queue_status d)) as [|q rest] eqn:Hsel; [discriminate|].
    apply first_selected in Hsel. destruct Hsel as [_ Hrow].
    destruct (Sql.holds (queue_of dept_id' hospital_id' q)) eqn:E; [|eauto].
    apply queue_of_holds in Hrow, E.
    destruct (queue_row_of_inj _ _ _ _ _ Hrow E) as [-> ->].
    rewrite Hc in Hn. apply int4_add_some in Hn. subst next.
    exists (c + 1). split; [reflexivity|lia].
Qed.

Lemma passed_token_stays dept_id hospital_id i a ops :
  status a = Some waiting ->
  appointment_in dept_id hospital_id a ->
  forall d,
    all_along only_advance ops d = true ->
    (nth_error (appointments d) i = Some a
     /\ exists c, currentToken dept_id hospital_id d = Some c /\ token_number a <= c) ->
    nth_error (appointments (perform_all ops d)) i = Some a
    /\ exists c, currentToken dept_id hospital_id (perform_all ops d) = Some c
                 /\ token_number a <= c.
Proof.
  intros Hs Hin d Hg HK.
  apply (all_along_invariant
           (fun d => nth_error (appointments d) i = Some a
                     /\ exists c, currentToken dept_id hospital_id d = Some c
                                  /\ token_number a <= c)
           only_advance); try assumption.
  clear d Hg HK. intros [| caller now dept_id' hospital_id' |] d0 Hop HK;
    try discriminate.
  now apply passed_token_step.
Qed.

(** ** Token numbers *)

Section TokenInvariant.

Variable P : option appointment_status -> Prop.

Lemma tokens_unique_restatused d d' :
  (forall i a', nth_error (appointments d') i = Some a' ->
                exists a, nth_error (appointments d) i = Some a /\ restatused P a a') ->
  tokens_unique P d -> tokens_unique P d'.
Proof.
  intros Hsim Hu i j a' b' Hi Hj Hij Pa Pb Hsame.
  destruct (Hsim i a' Hi) as (a & Hia & Ha1 & Ha2 & Ha3 & Ha4).
  destruct (Hsim j b' Hj) as (b & Hjb & Hb1 & Hb2 & Hb3 & Hb4).
  rewrite Ha3, Hb3. apply (Hu i j a b); auto.
  unfold same_department, appointment_in in *. rewrite <- Ha1, <- Ha2, <- Hb1, <- Hb2.
  exact Hsame.
Qed.

Lemma tokens_issued_restatused d d' :
  (forall i a', nth_error (appointments d') i = Some a' ->
                exists a, nth_error (appointments d) i = Some a /\ restatused P a a') ->
  (forall q', In q' (queue_status d') ->
              exists q, In q (queue_status d) /\ recounted q q') ->
  (forall q, In q (queue_status d) ->
             exists q', In q' (queue_status d') /\ recounted q q') ->
  tokens_issued P d -> tokens_issued P d'.
Proof.
  intros Hsim Hq' Hq HI a' Hin Pa p h Hdept.
  apply In_nth_error in Hin. destruct Hin as [i Hi].
  destruct (Hsim i a' Hi) as (a & Hia & Ha1 & Ha2 & Ha3 & Ha4).
  assert (Hdept0 : appointment_in (Some p) (Some h) a).
  { unfold appointment_in in *. now rewrite <- Ha1, <- Ha2. }
  destruct (HI a (nth_error_In _ _ Hia) (Ha4 Pa) p h Hdept0) as [(q & Hqin & Hrow) Hle].
  split.
  - destruct (Hq q Hqin) as (q1 & Hq1 & E1 & E2 & _). exists q1. split; [assumption|].
    unfold queue_row_of in *. now rewrite E1, E2.
  - intros q1 Hq1 Hrow1. destruct (Hq' q1 Hq1) as (q0 & Hq0 & E1 & E2 & E3).
    rewrite Ha3, E3. apply Hle; [assumption|].
    unfold queue_row_of in *. now rewrite <- E1, <- E2.
Qed.

Lemma restatused_refl a : restatused P a a.
Proof. now repeat split. Qed.

Lemma restatused_trans a b c : restatused P a b -> restatused P b c -> restatused P a c.
Proof.
  intros (A1 & A2 & A3 & A4) (B1 & B2 & B3 & B4).
  repeat split; try congruence. auto.
Qed.

Lemma update_restatused s (p : appointments_row -> option bool) t i a' :
  (forall a, Sql.holds (p a) = true -> P s -> P (status a)) ->
  nth_error (Sql.update p (set_status s) t) i = Some a' ->
  exists a, nth_error t i = Some a /\ restatused P a a'.
Proof.
  intros Hp. rewrite nth_error_update.
  destruct (nth_error t i) as [a|]; [|discriminate]. cbn [option_map].
  intros [= <-]. exists a. split; [reflexivity|].
  destruct (Sql.holds (p a)) eqn:E; [|apply restatused_refl].
  repeat split. cbn. now apply Hp.
Qed.

Lemma update_recounted (p : queue_status_row -> option bool) f t :
  (forall q, recounted q (f q)) ->
  (forall q', In q' (Sql.update p f t) -> exists q, In q t /\ recounted q q')
  /\ (forall q, In q t -> exists q', In q' (Sql.update p f t) /\ recounted q q').
Proof.
  intros Hf. split.
  - intros q' Hin. apply in_update in Hin. destruct Hin as (q & Hin & ->).
    exists q. split; [assumption|]. destruct (Sql.holds (p q)); [apply Hf|now repeat split].
  - intros q Hin. exists (if Sql.holds (p q) then f q else q). split.
    + unfold Sql.update. apply in_map_iff. eauto.
    + destruct (Sql.holds (p q)); [apply Hf|now repeat split].
Qed.

Hypothesis HP_ready : P (Some ready) -> P (Some waiting).
Hypothesis HP_completed : P (Some completed) -> P (Some ready).
Hypothesis HP_cancelled : ~ P (Some cancelled).

Lemma advance_tokens caller now dept_id hospital_id d :
  tokens_issued P d /\ tokens_unique P d ->
  let d' := perform (AdvanceQueue caller now dept_id hospital_id) d in
  tokens_issued P d' /\ tokens_unique P d'.
Proof.
  intros [HI HU] d'. subst d'. cbn [perform].
  destruct (rpc_advance_queue_cases caller now dept_id hospital_id d)
    as [->|(next & d' & _ & _ & -> & _ & _ & _ & Hq & Ha)]; [now split|].
  assert (Hsim : forall i a', nth_error (appointments d') i = Some a' ->
                   exists a, nth_error (appointments d) i = Some a /\ restatused P a a').
  { intros i a2 Hi. rewrite Ha in Hi.
    apply update_restatused in Hi.
    - destruct Hi as (a1 & Hi & R2). apply update_restatused in Hi.
      + destruct Hi as (a & Hi & R1). exists a. split; [assumption|].
        eapply restatused_trans; eauto.
      + intros a E Pr. apply token_clause in E. destruct E as (_ & _ & ->). auto.
    - intros a E Pc. apply token_clause in E. destruct E as (_ & _ & ->). auto. }
  destruct (update_recounted (queue_of dept_id hospital_id)
              (fun q => {| q_id := q_id q; q_hospital_id := q_hospital_id q;
                           q_department_id := q_department_id q;
                           current_token := next; total_tokens := total_tokens q;
                           updated_at := Some now |})
              (queue_status d)) as [Hq1 Hq2]; [now repeat split|].
  rewrite <- Hq in Hq1, Hq2.
  split.
  - eapply tokens_issued_restatused; eauto.
  - eapply tokens_unique_restatused; eauto.
Qed.

Lemma same_department_sym a b : same_department a b -> same_department b a.
Proof.
  unfold same_department. intros (p & h & Hp & Hh & Hp' & Hh').
  exists p, h. auto.
Qed.

Lemma tokens_unique_snoc d x :
  tokens_unique P d ->
  (forall b, In b (appointments d) -> P (status b) -> P (status x) ->
             same_department b x -> token_number b <> token_number x) ->
  tokens_unique P (set_appointments (appointments d ++ [x]) d).
Proof.
  intros HU Hx i j a b Hi Hj Hij Pa Pb Hsame. cbn [appointments set_appointments] in Hi, Hj.
  assert (Hcase : forall k c, nth_error (appointments d ++ [x]) k = Some c ->
            nth_error (appointments d) k = Some c
            \/ (k = length (appointments d) /\ c = x)).
  { intros k c Hk. destruct (Nat.lt_ge_cases k (length (appointments d))) as [Hlt|Hge].
    - left. now rewrite nth_error_app1 in Hk.
    - right. rewrite nth_error_app2 in Hk by assumption.
      destruct (k - length (appointments d))%nat as [|m] eqn:E.
      + cbn in Hk. injection Hk as <-. split; [lia|reflexivity].
      + cbn in Hk. now destruct m. }
  destruct (Hcase i a Hi) as [Hia|[-> ->]], (Hcase j b Hj) as [Hjb|[-> ->]].
  - now apply (HU i j a b).
  - apply Hx; auto. now apply nth_error_In in Hia.
  - intros E. symmetry in E. revert E. apply Hx; auto.
    + now apply nth_error_In in Hjb.
    + now apply same_department_sym.
  - contradiction.
Qed.

Lemma tokens_issued_snoc d x :
  tokens_issued P d ->
  (P (status x) -> forall p h, appointment_in (Some p) (Some h) x ->
     (exists q, In q (queue_status d) /\ queue_row_of (Some p) (Some h) q)
     /\ (forall q, In q (queue_status d) -> queue_row_of (Some p) (Some h) q ->
                   token_number x <= js_or (total_tokens q) 0)) ->
  tokens_issued P (set_appointments (appointments d ++ [x]) d).
Proof.
  intros HI Hx a Hin Pa p h Hdept. cbn [appointments queue_status set_appointments] in *.
  apply in_app_or in Hin. destruct Hin as [Hin|[<-|[]]].
  - now apply HI.
  - now apply Hx.
Qed.

Lemma issue_tokens uid now queue_id h p d n d1 :
  run (generateTokenNumber uid now queue_id h p) d = (inr n, d1) ->
  totalIssued (Some p) (Some h) d1 = Some n ->
  tokens_issued P d /\ tokens_unique P d ->
  (tokens_issued P d1 /\ tokens_unique P d1)
  /\ (exists q, In q (queue_status d1) /\ queue_row_of (Some p) (Some h) q)
  /\ (forall q, In q (queue_status d1) -> queue_row_of (Some p) (Some h) q ->
                js_or (total_tokens q) 0 = n)
  /\ (forall b, In b (appointments d1) -> P (status b) ->
                appointment_in (Some p) (Some h) b -> token_number b < n).
Proof.
  intros Hgen Htot [HI HU].
  apply generateTokenNumber_cases in Hgen.
  destruct Hgen as (_ & _ & _ & Ha & [[(e & He) _]|[(q & Hsel & Hn & Hq)|(Hsel & Hn & Hq)]]);
    [discriminate| |]; injection Hn as Hn.
  - (* one record, rewritten *)
    set (f := fun q' => {| q_id := q_id q'; q_hospital_id := q_hospital_id q';
                           q_department_id := q_department_id q';
                           current_token := current_token q';
                           total_tokens := Some (js_or (total_tokens q) 0 + 1);
                           updated_at := Some now |}) in Hq.
    set (cond := fun q => Sql.and (queue_of (Some p) (Some h) q)
                                  (Some (manages uid (q_hospital_id q) d))) in Hq.
    assert (Hsel1 : Sql.select (queue_of (Some p) (Some h)) (queue_status d1)
                    = [if Sql.holds (cond q) then f q else q]).
    { rewrite Hq, select_update, Hsel by reflexivity. reflexivity. }
    assert (Htot1 : total_tokens (if Sql.holds (cond q) then f q else q) = Some n).
    { unfold totalIssued, Sql.select_into in Htot. now rewrite Hsel1 in Htot. }
    assert (Hrows : forall q', In q' (queue_status d1) ->
                      queue_row_of (Some p) (Some h) q' -> total_tokens q' = Some n).
    { intros q' Hin Hrow. apply queue_of_holds in Hrow.
      now rewrite (select_single _ _ _ _ Hsel1 Hin Hrow). }
    assert (Hqin : In q (queue_status d) /\ queue_row_of (Some p) (Some h) q).
    { destruct (first_selected _ _ _ _ Hsel) as [H1 H2]. split; [assumption|].
      now apply queue_of_holds. }
    destruct Hqin as [Hqin Hqrow].
    assert (Hkeys : forall q0, q_department_id (if Sql.holds (cond q0) then f q0 else q0)
                               = q_department_id q0
                               /\ q_hospital_id (if Sql.holds (cond q0) then f q0 else q0)
                                  = q_hospital_id q0).
    { intros q0. now destruct (Sql.holds (cond q0)). }
    split; [split|split; [|split]].
    + intros a Hin Pa p' h' Hdept. rewrite Ha in Hin.
      destruct (HI a Hin Pa p' h' Hdept) as [(q0 & Hq0 & Hrow0) Hle]. split.
      * exists (if Sql.holds (cond q0) then f q0 else q0). split.
        -- rewrite Hq. unfold Sql.update. apply in_map_iff. eauto.
        -- destruct (Hkeys q0) as [E1 E2]. unfold queue_row_of in *. now rewrite E1, E2.
      * intros q' Hin' Hrow'. rewrite Hq in Hin'. apply in_update in Hin'.
        destruct Hin' as (q0' & Hin0 & ->).
        assert (Hrow0' : queue_row_of (Some p') (Some h') q0').
        { destruct (Hkeys q0') as [E1 E2]. unfold queue_row_of in *.
          now rewrite <- E1, <- E2. }
        specialize (Hle q0' Hin0 Hrow0').
        destruct (Sql.holds (cond q0')) eqn:E; [|assumption].
        unfold cond in E. rewrite holds_and, andb_true_iff in E. destruct E as [E _].
        rewrite (select_single _ _ _ _ Hsel Hin0 E) in Hle.
        cbn [total_tokens f]. rewrite js_or_some. lia.
    + intros i j a b Hi Hj. rewrite Ha in Hi, Hj. now apply (HU i j a b).
    + exists (if Sql.holds (cond q) then f q else q).
      assert (H : In (if Sql.holds (cond q) then f q else q)
                     (Sql.select (queue_of (Some p) (Some h)) (queue_status d1)))
        by (rewrite Hsel1; now left).
      apply filter_In in H. destruct H as [H1 H2]. split; [assumption|].
      now apply queue_of_holds.
    + intros q' Hin Hrow. rewrite (Hrows q' Hin Hrow). apply js_or_some.
    + intros b Hin Pb Hdept. rewrite Ha in Hin.
      destruct (HI b Hin Pb p h Hdept) as [_ Hle].
      specialize (Hle q Hqin Hqrow). lia.
  - (* no record, one inserted *)
    assert (Hnone : forall q, In q (queue_status d) ->
                              ~ queue_row_of (Some p) (Some h) q).
    { intros q Hin Hrow. apply queue_of_holds in Hrow.
      assert (H : In q (Sql.select (queue_of (Some p) (Some h)) (queue_status d)))
        by (apply filter_In; auto).
      now rewrite Hsel in H. }
    split; [split|split; [|split]].
    + intros a Hin Pa p' h' Hdept. rewrite Ha in Hin.
      destruct (HI a Hin Pa p' h' Hdept) as [(q0 & Hq0 & Hrow0) Hle]. split.
      * exists q0. split; [|assumption]. rewrite Hq. apply in_or_app. now left.
      * intros q' Hin' Hrow'. rewrite Hq in Hin'. apply in_app_or in Hin'.
        destruct Hin' as [Hin'|[<-|[]]]; [now apply Hle|].
        exfalso. destruct Hrow' as (p0 & h0 & [= <-] & [= <-] & Hp0 & Hh0).
        cbn in Hp0, Hh0. injection Hp0 as <-. injection Hh0 as <-.
        now apply (Hnone q0).
    + intros i j a b Hi Hj. rewrite Ha in Hi, Hj. now apply (HU i j a b).
    + eexists. split; [rewrite Hq; apply in_or_app; right; now left|].
      exists p, h. now repeat split.
    + intros q' Hin Hrow. rewrite Hq in Hin. apply in_app_or in Hin.
      destruct Hin as [Hin|[<-|[]]]; [now apply Hnone in Hin|]. now subst n.
    + intros b Hin Pb Hdept. rewrite Ha in Hin.
      destruct (HI b Hin Pb p h Hdept) as [(q0 & Hq0 & Hrow0) _].
      now apply Hnone in Hq0.
Qed.

Lemma book_tokens user now queue_id appointment_id data d :
  issue_recorded (Book user now queue_id appointment_id data) d = true ->
  tokens_issued P d /\ tokens_unique P d ->
  let d' := perform (Book user now queue_id appointment_id data) d in
  tokens_issued P d' /\ tokens_unique P d'.
Proof.
  intros Hg HJ d'. subst d'. destruct user as [uid|]; [|exact HJ].
  destruct (onSubmit_run uid now queue_id appointment_id data d)
    as (r & d1 & Hgen & Hd').
  cbn [issue_recorded] in Hg. rewrite Hgen in Hg.
  destruct r as [e|n].
  - (* the token was not issued *)
    destruct Hd' as [->|(n & a & [=] & _)].
    apply generateTokenNumber_cases in Hgen.
    destruct Hgen as (_ & _ & _ & Ha & [[_ Hq]|[(q & _ & [=] & _)|(_ & [=] & _)]]).
    destruct HJ as [HI HU]. split.
    + intros a Hin. rewrite Ha in Hin. rewrite Hq. now apply HI.
    + intros i j a b Hi Hj. rewrite Ha in Hi, Hj. now apply (HU i j a b).
  - destruct (totalIssued _ _ d1) as [t|] eqn:Htot; [|discriminate].
    apply Z.eqb_eq in Hg. subst t.
    destruct (issue_tokens _ _ _ _ _ _ _ _ Hgen Htot HJ)
      as ([HI1 HU1] & Hex & Hrows & Hold).
    destruct Hd' as [->|(n' & x & [= <-] & Hh & Hp & Hn & Hs & ->)]; [now split|].
    split.
    + apply tokens_issued_snoc; [assumption|].
      intros _ p h (p0 & h0 & [= <-] & [= <-] & Hp0 & Hh0).
      rewrite Hp in Hp0. rewrite Hh in Hh0. injection Hp0 as <-. injection Hh0 as <-.
      split; [assumption|].
      intros q Hin Hrow. rewrite (Hrows q Hin Hrow). lia.
    + apply tokens_unique_snoc; [assumption|].
      intros b Hin Pb _ Hsame. apply same_department_sym in Hsame.
      unfold same_department in Hsame. rewrite Hp, Hh in Hsame.
      specialize (Hold b Hin Pb Hsame). lia.
Qed.

End TokenInvariant.

Lemma reset_tokens caller now dept_id hospital_id d :
  tokens_issued is_waiting d /\ tokens_unique is_waiting d ->
  let d' := perform (ResetQueue caller now dept_id hospital_id) d in
  tokens_issued is_waiting d' /\ tokens_unique is_waiting d'.
Proof.
  intros [HI HU] d'. subst d'. cbn [perform].
  destruct (rpc_reset_cases caller now dept_id hospital_id d)
    as [->|(d' & -> & _ & _ & _ & Hq & Ha)]; [now split|].
  assert (Hsim : forall i a', nth_error (appointments d') i = Some a' ->
            exists a, nth_error (appointments d) i = Some a
                      /\ restatused is_waiting a a').
  { intros i a' Hi. rewrite Ha in Hi.
    apply (update_restatused is_waiting) in Hi; [assumption|].
    intros a _ [=]. }
  split; [|eapply tokens_unique_restatused; eauto].
  intros a' Hin Pa p h Hdept.
  apply In_nth_error in Hin. destruct Hin as [i Hi].
  rewrite Ha, nth_error_update in Hi.
  destruct (nth_error (appointments d) i) as [a|] eqn:Hia; [|discriminate].
  cbn [option_map] in Hi. injection Hi as Hi.
  destruct (Sql.holds _) eqn:E; subst a'; [discriminate Pa|].
  destruct (HI a (nth_error_In _ _ Hia) Pa p h Hdept) as [(q & Hqin & Hrow) Hle].
  assert (Hother : ~ (dept_id = Some p /\ hospital_id = Some h)).
  { intros [-> ->].
    assert (E' : Sql.holds (Sql.and (appointment_of (Some p) (Some h) a)
                                    (eq_status (status a) (Some waiting))) = true)
      by (apply waiting_clause; auto).
    congruence. }
  assert (Hkeep : forall q0, queue_row_of (Some p) (Some h) q0 ->
                             Sql.holds (queue_of dept_id hospital_id q0) = false).
  { intros q0 Hrow0.
    destruct (Sql.holds (queue_of dept_id hospital_id q0)) eqn:E0; [|reflexivity].
    apply queue_of_holds in E0.
    destruct (queue_row_of_inj _ _ _ _ _ E0 Hrow0) as [E1 E2]. exfalso. auto. }
  split.
  - exists q. split; [|assumption]. rewrite Hq. unfold Sql.update. apply in_map_iff.
    exists q. rewrite (Hkeep q Hrow). auto.
  - intros q' Hin' Hrow'. rewrite Hq in Hin'. apply in_update in Hin'.
    destruct Hin' as (q0 & Hin0 & ->).
    destruct (Sql.holds (queue_of dept_id hospital_id q0)) eqn:E0; [|now apply Hle].
    exfalso.
    assert (Hrow0 : queue_row_of (Some p) (Some h) q0).
    { destruct Hrow' as (p1 & h1 & E1 & E2 & Hp1 & Hh1). exists p1, h1. auto. }
    rewrite (Hkeep q0 Hrow0) in E0. discriminate.
Qed.

(** C3 (amended): starting with no appointments, after every run of
    bookings and AdvanceQueue calls without ResetQueue, in which every token
    a booking is given is what the department's [total_tokens] then holds, no
    two appointments of a department that are not Cancelled share a token
    number; with ResetQueue calls in the run as well, no two Waiting
    appointments of a department share one. *)
Theorem tokens_unique_when_recorded d0 ops :
  appointments d0 = [] ->
  (all_along recorded_no_reset ops d0 = true ->
   tokens_unique not_cancelled (perform_all ops d0))
  /\ (all_along issue_recorded ops d0 = true ->
      tokens_unique is_waiting (perform_all ops d0)).
Proof.
  intros Hfresh.
  assert (H0 : forall P, tokens_issued P d0 /\ tokens_unique P d0).
  { intros P. split.
    - intros a Hin. rewrite Hfresh in Hin. destruct Hin.
    - intros i j a b Hi. rewrite Hfresh in Hi. now destruct i. }
  split; intros Hg.
  - apply (all_along_invariant
             (fun d => tokens_issued not_cancelled d /\ tokens_unique not_cancelled d)
             recorded_no_reset); [|assumption|apply H0].
    intros op d Hop HJ. unfold recorded_no_reset in Hop.
    apply andb_true_iff in Hop. destruct Hop as [Hrec Hnr].
    destruct op as [user now q a data|caller now dept_id hospital_id
                   |caller now dept_id hospital_id]; [| |discriminate].
    + now apply book_tokens.
    + apply advance_tokens; [discriminate|discriminate|assumption].
  - apply (all_along_invariant
             (fun d => tokens_issued is_waiting d /\ tokens_unique is_waiting d)
             issue_recorded); [|assumption|apply H0].
    intros op d Hop HJ.
    destruct op as [user now q a data|caller now dept_id hospital_id
                   |caller now dept_id hospital_id].
    + now apply book_tokens.
    + apply advance_tokens; [discriminate|discriminate|assumption].
    + now apply reset_tokens.
Qed.

(** ** Issuing tokens *)

Lemma administers_same_hospitals caller hospital d d' :
  hospitals d' = hospitals d -> administers caller hospital d ->
  administers caller hospital d'.
Proof. unfold administers. now intros ->. Qed.

(** A call on the department's one record, by a caller the policy admits:
    the token is the stored total plus one, and the record then holds it. *)
Lemma issue_on_record uid now queue_id h p d q :
  Sql.select (queue_of (Some p) (Some h)) (queue_status d) = [q] ->
  administers (Some uid) (Some h) d ->
  in_int4 (js_or (total_tokens q) 0 + 1) = true ->
  exists d1 q1,
    run (generateTokenNumber uid now queue_id h p) d
    = (inr (js_or (total_tokens q) 0 + 1), d1)
    /\ hospitals d1 = hospitals d
    /\ Sql.select (queue_of (Some p) (Some h)) (queue_status d1) = [q1]
    /\ total_tokens q1 = Some (js_or (total_tokens q) 0 + 1)
    /\ current_token q1 = current_token q.
Proof.
  intros Hsel Hadm Hrange.
  rewrite generateTokenNumber_run, Hsel. unfold update_total_tokens.
  rewrite Hrange. cbn [negb].
  eexists. eexists. split; [reflexivity|]. split; [reflexivity|].
  cbn [queue_status set_queue_status].
  rewrite select_update, Hsel by reflexivity. cbn [Sql.update map].
  destruct (first_selected _ _ _ _ Hsel) as [_ Hrow].
  pose proof Hrow as Hrow'. apply queue_of_holds in Hrow'.
  destruct Hrow' as (p0 & h0 & [= <-] & [= <-] & _ & Hh).
  rewrite holds_and, Hrow, Hh. unfold manages.
  apply is_hospital_admin_spec in Hadm. rewrite Hadm. cbn.
  repeat split.
Qed.

(** C1 (amended): [generateTokenNumber] reads the total and writes it back
    in two separate requests, with no lock.  When two calls for a department
    run one after the other, on the department's one queue record and by
    callers whose write the [queue_status] policy admits, they return the
    consecutive numbers [total + 1] and [total + 2], and the record then
    holds [total + 2]. *)
Theorem sequential_issues_consecutive
        uid1 uid2 now1 now2 queue_id1 queue_id2 h p d q :
  Sql.select (queue_of (Some p) (Some h)) (queue_status d) = [q] ->
  administers (Some uid1) (Some h) d ->
  administers (Some uid2) (Some h) d ->
  int4_min <= js_or (total_tokens q) 0 + 1 ->
  js_or (total_tokens q) 0 + 2 <= int4_max ->
  exists d1 d2,
    run (generateTokenNumber uid1 now1 queue_id1 h p) d
    = (inr (js_or (total_tokens q) 0 + 1), d1)
    /\ run (generateTokenNumber uid2 now2 queue_id2 h p) d1
       = (inr (js_or (total_tokens q) 0 + 2), d2)
    /\ totalIssued (Some p) (Some h) d2 = Some (js_or (total_tokens q) 0 + 2).
Proof.
  intros Hsel Hadm1 Hadm2 Hlo Hhi.
  destruct (issue_on_record uid1 now1 queue_id1 h p d q Hsel Hadm1)
    as (d1 & q1 & Hrun1 & Hh1 & Hsel1 & Ht1 & _).
  { unfold in_int4. apply andb_true_iff. split; apply Z.leb_le; lia. }
  destruct (issue_on_record uid2 now2 queue_id2 h p d1 q1 Hsel1)
    as (d2 & q2 & Hrun2 & _ & Hsel2 & Ht2 & _).
  { now apply (administers_same_hospitals _ _ d). }
  { rewrite Ht1, js_or_some. unfold in_int4.
    apply andb_true_iff. split; apply Z.leb_le; lia. }
  rewrite Ht1, js_or_some in Hrun2, Ht2.
  replace (js_or (total_tokens q) 0 + 1 + 1) with (js_or (total_tokens q) 0 + 2)
    in Hrun2, Ht2 by lia.
  exists d1, d2. split; [assumption|]. split; [assumption|].
  unfold totalIssued, Sql.select_into. now rewrite Hsel2.
Qed.

Lemma sequential_issues_consecutive_witness :
  exists d1 d2,
    run (generateTokenNumber 10%N 1 2001%N 1%N 100%N) sample = (inr 1, d1)
    /\ run (generateTokenNumber 10%N 2 2002%N 1%N 100%N) d1 = (inr 2, d2)
    /\ totalIssued (Some 100%N) (Some 1%N) d2 = Some 2.
Proof.
  apply (sequential_issues_consecutive 10%N 10%N 1 2 2001%N 2002%N 1%N 100%N sample
           {| q_id := 1000%N; q_hospital_id := Some 1%N; q_department_id := Some 100%N;
              current_token := Some 0; total_tokens := Some 0; updated_at := Some 0 |}).
  - reflexivity.
  - apply is_hospital_admin_spec. reflexivity.
  - apply is_hospital_admin_spec. reflexivity.
  - cbn. unfold int4_min. lia.
  - cbn. unfold int4_max. lia.
Defined.

(** Two calls interleaved read-read-write-write both return token 1, and the
    total ends at 1. *)
Lemma interleaved_issues_collide :
  interleave [first_call; second_call; first_call; second_call]
    (generateTokenNumber 10%N 5 2001%N 1%N 100%N)
    (generateTokenNumber 10%N 6 2002%N 1%N 100%N)
    sample
  = (Return 1, Return 1,
     set_queue_status
       [ {| q_id := 1000%N; q_hospital_id := Some 1%N; q_department_id := Some 100%N;
            current_token := Some 0; total_tokens := Some 1; updated_at := Some 6 |} ]
       sample).
Proof. reflexivity. Qed.

(** C10: a booking's token is the stored total plus one, whatever the
    current token is; a state with a Waiting appointment whose token is at
    most the current token is reachable (two advances past the issued total,
    then a booking); and from any such state no sequence of [advance_queue]
    calls changes that appointment: it stays Waiting, until a reset of its
    department cancels it. *)
Theorem passed_waiting_appointment_is_never_called :
  (* the token of a booking is the stored total plus one, whatever the
     current token is *)
  (forall uid now queue_id h p d q,
      Sql.select (queue_of (Some p) (Some h)) (queue_status d) = [q] ->
      in_int4 (js_or (total_tokens q) 0 + 1) = true ->
      fst (run (generateTokenNumber uid now queue_id h p) d)
      = inr (js_or (total_tokens q) 0 + 1))
  (* a Waiting appointment at or below the current token is reachable *)
  /\ (exists a,
        late_booking
        = perform_all [book_nth 1; call_next; call_next; book_nth 2] sample
        /\ nth_error (appointments late_booking) 1 = Some a
        /\ status a = Some waiting
        /\ appointment_in (Some 100%N) (Some 1%N) a
        /\ currentToken (Some 100%N) (Some 1%N) late_booking = Some 2
        /\ token_number a = 2)
  (* and no AdvanceQueue calls move it; a reset cancels it *)
  /\ (forall d dept_id hospital_id i a c ops,
        nth_error (appointments d) i = Some a ->
        status a = Some waiting ->
        appointment_in dept_id hospital_id a ->
        currentToken dept_id hospital_id d = Some c ->
        token_number a <= c ->
        all_along only_advance ops d = true ->
        nth_error (appointments (perform_all ops d)) i = Some a
        /\ (forall caller now,
              administers caller hospital_id (perform_all ops d) ->
              nth_error
                (appointments
                   (perform (ResetQueue caller now dept_id hospital_id)
                            (perform_all ops d))) i
              = Some (set_status (Some cancelled) a))).
Proof.
  split; [|split].
  - intros uid now queue_id h p d q Hsel Hrange.
    rewrite generateTokenNumber_run, Hsel. unfold update_total_tokens.
    now rewrite Hrange.
  - exists (booked_row 2 2 waiting). repeat split. exists 100%N, 1%N. now repeat split.
  - intros d dept_id hospital_id i a c ops Hi Hs Hin Hc Hle Hg.
    destruct (passed_token_stays dept_id hospital_id i a ops Hs Hin d Hg) as [Hi' _];
      [eauto|].
    split; [assumption|].
    intros caller now Hadm%is_hospital_admin_spec. cbn [perform].
    destruct (reset_department_queue_run caller now dept_id hospital_id _ Hadm)
      as (d' & -> & _ & _ & _ & _ & Ha).
    cbn [snd]. rewrite Ha, nth_error_update, Hi'. cbn [option_map].
    now rewrite (proj2 (waiting_clause dept_id hospital_id a) (conj Hin Hs)).
Qed.

Lemma passed_waiting_appointment_witness :
  nth_error (appointments late_booking) 1 = Some (booked_row 2 2 waiting)
  /\ currentToken (Some 100%N) (Some 1%N) late_booking = Some 2
  /\ nth_error
       (appointments (perform_all [call_next; call_next; call_next] late_booking)) 1
     = Some (booked_row 2 2 waiting).
Proof.
  split; [reflexivity|]. split; [reflexivity|].
  destruct passed_waiting_appointment_is_never_called as (_ & _ & H).
  apply (H late_booking (Some 100%N) (Some 1%N) 1%nat (booked_row 2 2 waiting) 2
           [call_next; call_next; call_next]).
  - reflexivity.
  - reflexivity.
  - exists 100%N, 1%N. repeat split.
  - reflexivity.
  - cbn. lia.
  - reflexivity.
Defined.

(** ** Scenarios *)

Lemma sample_keys_unique : queue_keys_unique sample.
Proof.
  intros dept_id hospital_id. cbn.
  destruct (Sql.holds _); cbn; lia.
Qed.

Lemma sample_counters_ordered : counters_ordered sample.
Proof.
  intros q [<-|[]]. exists 0, 0. repeat split. lia.
Qed.

Lemma sample_admin : administers (Some 10%N) (Some 1%N) sample.
Proof. apply is_hospital_admin_spec. reflexivity. Qed.

(** Scenario A of the specification: current token 0, token 1 Waiting;
    AdvanceQueue returns 1 and token 1 becomes Ready. *)
Example scenario_A :
  appointments (perform (book_nth 1) sample) = [booked_row 1 1 waiting]
  /\ rpc (advance_queue (Some 10%N) 0 (Some 100%N) (Some 1%N))
         (perform (book_nth 1) sample)
     = (inr (Some 1), first_called)
  /\ appointments first_called = [booked_row 1 1 ready].
Proof. repeat split. Qed.

(** Scenario B: token 2 is booked, AdvanceQueue returns 2, token 2 becomes
    Ready and token 1 Completed. *)
Example scenario_B :
  fst (rpc (advance_queue (Some 10%N) 0 (Some 100%N) (Some 1%N))
           (perform (book_nth 2) first_called))
  = inr (Some 2)
  /\ appointments (perform call_next (perform (book_nth 2) first_called))
     = [booked_row 1 1 completed; booked_row 2 2 ready].
Proof. repeat split. Qed.

(** Scenario C: a reset with three Waiting appointments cancels the three,
    zeroes both counters and leaves the Ready one. *)
Example scenario_C :
  map (fun a => (token_number a, status a))
    (appointments
       (perform_all [book_nth 2; book_nth 3; book_nth 4; reset_queue] first_called))
  = [(1, Some ready); (2, Some cancelled); (3, Some cancelled); (4, Some cancelled)]
  /\ currentToken (Some 100%N) (Some 1%N)
       (perform_all [book_nth 2; book_nth 3; book_nth 4; reset_queue] first_called)
     = Some 0
  /\ totalIssued (Some 100%N) (Some 1%N)
       (perform_all [book_nth 2; book_nth 3; book_nth 4; reset_queue] first_called)
     = Some 0.
Proof. repeat split. Qed.

(** A booking by a user who does not administer the hospital: the UPDATE of
    [queue_status] is filtered by the row policy, so the total stays 0 while
    the appointment is written with token 1, and so is the next one. *)
Example patient_bookings :
  let book k := Book (Some 20%N) 0 (2000 + k)%N (3000 + k)%N sample_form in
  map token_number (appointments (perform_all [book 1%N; book 2%N] sample)) = [1; 1]
  /\ totalIssued (Some 100%N) (Some 1%N) (perform_all [book 1%N; book 2%N] sample)
     = Some 0.
Proof. split; reflexivity. Qed.

(** One AdvanceQueue on the fresh department leaves [current_token = 1]
    above [total_tokens = 0]. *)
Lemma order_broken_by_empty_advance :
  queue_keys_unique sample /\ counters_ordered sample
  /\ ~ counters_ordered (perform_all [call_next] sample).
Proof.
  split; [exact sample_keys_unique|]. split; [exact sample_counters_ordered|].
  intros H.
  destruct (H {| q_id := 1000%N; q_hospital_id := Some 1%N;
                 q_department_id := Some 100%N;
                 current_token := Some 1; total_tokens := Some 0;
                 updated_at := Some 0 |}) as (c & t & Hc & Ht & Hle).
  - now left.
  - cbn in Hc, Ht. injection Hc as <-. injection Ht as <-. lia.
Qed.

Lemma counters_ordered_witness :
  counters_ordered
    (perform_all [book_nth 1; call_next; reset_queue; book_nth 2; call_next] sample).
Proof.
  apply counters_ordered_while_below_issued.
  - exact sample_keys_unique.
  - exact sample_counters_ordered.
  - reflexivity.
Defined.

(** After a reset the next booking gets token 1 again, while the Ready
    appointment that holds token 1 is still there. *)
Lemma token_reissued_after_reset :
  ~ tokens_unique not_cancelled
      (perform_all [book_nth 1; call_next; reset_queue; book_nth 2] sample).
Proof.
  intros H.
  apply (H 0%nat 1%nat (booked_row 1 1 ready) (booked_row 2 1 waiting)).
  - reflexivity.
  - reflexivity.
  - discriminate.
  - discriminate.
  - discriminate.
  - exists 100%N, 1%N. repeat split.
  - reflexivity.
Qed.

Lemma tokens_unique_witness :
  tokens_unique not_cancelled
    (perform_all [book_nth 1; call_next; book_nth 2; call_next] sample)
  /\ tokens_unique is_waiting
       (perform_all [book_nth 1; call_next; reset_queue; book_nth 2; book_nth 3] sample).
Proof.
  split.
  - apply (proj1 (tokens_unique_when_recorded sample
                    [book_nth 1; call_next; book_nth 2; call_next] eq_refl)).
    reflexivity.
  - apply (proj2 (tokens_unique_when_recorded sample
                    [book_nth 1; call_next; reset_queue; book_nth 2; book_nth 3] eq_refl)).
    reflexivity.
Defined.

(** At the largest [integer] the increment raises and nothing changes. *)
Lemma advance_queue_at_int4_max :
  administers (Some 10%N) (Some 1%N) sample_at_max
  /\ currentToken (Some 100%N) (Some 1%N) sample_at_max = Some int4_max
  /\ rpc (advance_queue (Some 10%N) 1 (Some 100%N) (Some 1%N)) sample_at_max
     = (inl integer_out_of_range, sample_at_max).
Proof.
  split; [apply is_hospital_admin_spec; reflexivity|]. split; reflexivity.
Qed.

Lemma advance_queue_step_witness :
  exists d',
    rpc (advance_queue (Some 10%N) 5 (Some 100%N) (Some 1%N))
        (perform (book_nth 1) sample)
    = (inr (Some 1), d')
    /\ currentToken (Some 100%N) (Some 1%N) d' = Some 1
    /\ nth_error (appointments d') 0 = Some (booked_row 1 1 ready).
Proof.
  destruct (advance_queue_step (Some 10%N) 5 (Some 100%N) (Some 1%N)
              (perform (book_nth 1) sample) 0)
    as (d' & Hrun & Hcur & _ & Happ & _).
  - apply is_hospital_admin_spec. reflexivity.
  - reflexivity.
  - unfold int4_min, int4_max. lia.
  - exists d'. split; [exact Hrun|]. split; [exact Hcur|].
    apply (Happ 0%nat (booked_row 1 1 waiting)).
    + reflexivity.
    + exists 100%N, 1%N. repeat split.
    + reflexivity.
    + reflexivity.
Defined.

(** [update_appointment_status] puts a Completed appointment back to
    Waiting. *)
Lemma status_update_leaves_terminal :
  second_called = perform_all [book_nth 1; call_next; call_next] sample
  /\ nth_error (appointments second_called) 0 = Some (booked_row 1 1 completed)
  /\ terminal (status (booked_row 1 1 completed))
  /\ rpc (update_appointment_status (Some 3001%N) (Some waiting) (Some 10%N))
         second_called
     = (inr true, set_appointments [booked_row 1 1 waiting] second_called).
Proof.
  split; [reflexivity|]. split; [reflexivity|]. split; [left|]; reflexivity.
Qed.

Lemma terminal_status_kept_witness :
  nth_error
    (appointments
       (perform_all [call_next; reset_queue; book_nth 2; call_next] second_called)) 0
  = Some (booked_row 1 1 completed).
Proof.
  apply terminal_status_kept.
  - reflexivity.
  - left. reflexivity.
Defined.



(** For a department with no queue record the call returns NULL. *)
Lemma advance_without_record_returns_null :
  administers (Some 10%N) (Some 1%N) sample
  /\ (forall q, In q (queue_status sample) -> ~ queue_row_of (Some 101%N) (Some 1%N) q)
  /\ rpc (advance_queue (Some 10%N) 1 (Some 101%N) (Some 1%N)) sample
     = (inr None, sample).
Proof.
  split; [exact sample_admin|]. split; [|reflexivity].
  intros q [<-|[]] (p & h & [= <-] & _ & Hp & _). discriminate.
Qed.

Lemma advance_queue_without_record_witness :
  rpc (advance_queue (Some 10%N) 4 (Some 102%N) (Some 1%N)) sample = (inr None, sample).
Proof.
  apply advance_queue_without_record.
  - apply is_hospital_admin_spec. reflexivity.
  - intros q [<-|[]] (p & h & [= <-] & _ & Hp & _). discriminate.
Defined.

Lemma unauthorized_call_rejected_witness :
  rpc (advance_queue (Some 20%N) 1 (Some 100%N) (Some 1%N)) sample
  = (inl Unauthorized, sample)
  /\ rpc (reset_department_queue (Some 20%N) 1 (Some 100%N) (Some 1%N)) sample
     = (inl Unauthorized, sample).
Proof.
  apply unauthorized_call_rejected.
  intros H%is_hospital_admin_spec. discriminate.
Defined.

Lemma reset_department_queue_effect_witness :
  exists d',
    rpc (reset_department_queue (Some 10%N) 9 (Some 100%N) (Some 1%N))
        (perform_all [book_nth 1; call_next; book_nth 2] sample)
    = (inr tt, d')
    /\ nth_error (appointments d') 0 = Some (booked_row 1 1 ready)
    /\ nth_error (appointments d') 1 = Some (booked_row 2 2 cancelled).
Proof.
  destruct (reset_department_queue_effect (Some 10%N) 9 (Some 100%N) (Some 1%N)
              (perform_all [book_nth 1; call_next; book_nth 2] sample))
    as (d' & Hrun & _ & Happ & _).
  - apply is_hospital_admin_spec. reflexivity.
  - exists d'. split; [exact Hrun|]. split.
    + apply (Happ 0%nat (booked_row 1 1 ready)); [reflexivity|].
      intros [_ H]. discriminate.
    + apply (Happ 1%nat (booked_row 2 2 waiting)); [reflexivity| |reflexivity].
      exists 100%N, 1%N. repeat split.
Defined.

(** ** update_appointment_status *)

Lemma update_appointment_status_run appointment_id_param new_status admin_id_param d :
  rpc (update_appointment_status appointment_id_param new_status admin_id_param) d =
  if Sql.holds (Sql.neq N.eqb (appointment_hospital appointment_id_param d)
                        (admin_hospital admin_id_param d))
  then (inr false, d)
  else (inr true,
        set_appointments
          (Sql.update (fun a => Sql.eq_uuid (Some (a_id a)) appointment_id_param)
                      (set_status new_status) (appointments d)) d).
Proof.
  run_plpgsql. unfold appointment_hospital, admin_hospital.
  now destruct (Sql.holds _).
Qed.

Lemma holds_neq (x y : option uuid) :
  Sql.holds (Sql.neq N.eqb x y) = true <-> exists a b, x = Some a /\ y = Some b /\ a <> b.
Proof.
  unfold Sql.neq, Sql.eq, Sql.holds. destruct x as [a|], y as [b|]; cbn.
  - destruct (N.eqb_spec a b); cbn; split; try discriminate.
    + intros (a' & b' & [= <-] & [= <-] & H). contradiction.
    + intros _. eauto.
    + reflexivity.
  - split; [discriminate|]. intros (a' & b' & _ & H & _). discriminate.
  - split; [discriminate|]. intros (a' & b' & H & _). discriminate.
  - split; [discriminate|]. intros (a' & b' & H & _). discriminate.
Qed.

(** X1: [update_appointment_status] returns FALSE and leaves the database as
    it is when the appointment's hospital and the hospital administered by
    [admin_id_param] are both known and differ. *)
Theorem status_update_refused appointment_id_param new_status admin_id_param d x y :
  appointment_hospital appointment_id_param d = Some x ->
  admin_hospital admin_id_param d = Some y ->
  x <> y ->
  rpc (update_appointment_status appointment_id_param new_status admin_id_param) d
  = (inr false, d).
Proof.
  intros Hx Hy Hxy. rewrite update_appointment_status_run.
  rewrite (proj2 (holds_neq _ _)); [reflexivity|]. exists x, y. auto.
Qed.

Lemma status_update_rows appointment_id_param new_status admin_id_param d :
  Sql.holds (Sql.neq N.eqb (appointment_hospital appointment_id_param d)
                     (admin_hospital admin_id_param d)) = false ->
  exists d',
    rpc (update_appointment_status appointment_id_param new_status admin_id_param) d
    = (inr true, d')
    /\ users d' = users d /\ hospitals d' = hospitals d
    /\ departments d' = departments d /\ queue_status d' = queue_status d
    /\ length (appointments d') = length (appointments d)
    /\ forall i a, nth_error (appointments d) i = Some a ->
         (appointment_id_param = Some (a_id a) ->
          nth_error (appointments d') i = Some (set_status new_status a))
         /\ (appointment_id_param <> Some (a_id a) ->
             nth_error (appointments d') i = Some a).
Proof.
  intros E. rewrite update_appointment_status_run, E. clear E.
  eexists. split; [reflexivity|]. cbn [users hospitals departments queue_status
                                         appointments set_appointments].
  repeat split.
  - apply length_map.
  - intros ->. rewrite nth_error_update, H. cbn [option_map].
    now rewrite (proj2 (holds_eq_uuid _ _)) by eauto.
  - intros Hne. rewrite nth_error_update, H. cbn [option_map].
    destruct (Sql.holds (Sql.eq_uuid (Some (a_id a)) appointment_id_param)) eqn:E';
      [|reflexivity].
    apply holds_eq_uuid in E'. destruct E' as (v & [= <-] & ->). contradiction.
Qed.

(** X2: when the two hospitals are equal, or one of them is NULL (no such
    appointment, or no hospital administered by [admin_id_param]),
    [update_appointment_status] returns TRUE: the rows whose id is
    [appointment_id_param] get the new status, every other row and every
    other table is unchanged. *)
Theorem status_update_applied appointment_id_param new_status admin_id_param d :
  appointment_hospital appointment_id_param d = admin_hospital admin_id_param d
  \/ appointment_hospital appointment_id_param d = None
  \/ admin_hospital admin_id_param d = None ->
  exists d',
    rpc (update_appointment_status appointment_id_param new_status admin_id_param) d
    = (inr true, d')
    /\ users d' = users d /\ hospitals d' = hospitals d
    /\ departments d' = departments d /\ queue_status d' = queue_status d
    /\ length (appointments d') = length (appointments d)
    /\ forall i a, nth_error (appointments d) i = Some a ->
         (appointment_id_param = Some (a_id a) ->
          nth_error (appointments d') i = Some (set_status new_status a))
         /\ (appointment_id_param <> Some (a_id a) ->
             nth_error (appointments d') i = Some a).
Proof.
  intros H. apply status_update_rows.
  destruct (Sql.holds (Sql.neq _ _ _)) eqn:E; [|reflexivity].
  apply holds_neq in E. destruct E as (a & b & Ha & Hb & Hab).
  destruct H as [H|[H|H]]; congruence.
Qed.

(** X3: [admin_id_param] is an argument of the call and a NULL hospital
    compares as not true: with an [admin_id_param] that administers no
    hospital, [update_appointment_status] sets the status of any
    appointment. *)
Theorem status_update_by_stranger appointment_id new_status admin_id_param d i a :
  (forall h, In h (hospitals d) -> admin_id h <> admin_id_param) ->
  nth_error (appointments d) i = Some a ->
  a_id a = appointment_id ->
  exists d',
    rpc (update_appointment_status (Some appointment_id) new_status admin_id_param) d
    = (inr true, d')
    /\ nth_error (appointments d') i = Some (set_status new_status a).
Proof.
  intros Hnone Hi Hid.
  assert (Hadm : admin_hospital admin_id_param d = None).
  { unfold admin_hospital, Sql.select_into. rewrite select_none; [reflexivity|].
    intros h Hin. destruct (Sql.holds _) eqn:E; [|reflexivity].
    apply holds_eq_uuid in E. destruct E as (v & Hv & ->). now apply Hnone in Hin. }
  destruct (status_update_rows (Some appointment_id) new_status admin_id_param d)
    as (d' & Hrun & _ & _ & _ & _ & _ & Hrows).
  { rewrite Hadm. unfold Sql.neq, Sql.eq. now destruct (appointment_hospital _ d). }
  exists d'. split; [assumption|]. apply (Hrows i a Hi). now rewrite Hid.
Qed.

Lemma status_update_refused_witness :
  rpc (update_appointment_status (Some 3001%N) (Some cancelled) (Some 11%N)) two_hospitals
  = (inr false, two_hospitals).
Proof.
  apply (status_update_refused _ _ _ _ 1%N 2%N).
  - reflexivity.
  - reflexivity.
  - discriminate.
Defined.

Lemma status_update_applied_witness :
  exists d',
    rpc (update_appointment_status (Some 3001%N) (Some cancelled) (Some 10%N))
        first_called
    = (inr true, d')
    /\ nth_error (appointments d') 0 = Some (booked_row 1 1 cancelled).
Proof.
  destruct (status_update_applied (Some 3001%N) (Some cancelled) (Some 10%N) first_called)
    as (d' & Hrun & _ & _ & _ & _ & _ & Hrows).
  - left. reflexivity.
  - exists d'. split; [exact Hrun|].
    apply (Hrows 0%nat (booked_row 1 1 ready)); reflexivity.
Defined.

Lemma status_update_by_stranger_witness :
  exists d',
    rpc (update_appointment_status (Some 3001%N) (Some completed) (Some 20%N))
        first_called
    = (inr true, d')
    /\ nth_error (appointments d') 0 = Some (booked_row 1 1 completed).
Proof.
  apply (status_update_by_stranger 3001%N (Some completed) (Some 20%N) first_called
           0%nat (booked_row 1 1 ready)).
  - intros h [<-|[]]. discriminate.
  - reflexivity.
  - reflexivity.
Defined.

(** ** generateTokenNumber at the edges *)

Lemma manages_spec uid hospital d :
  manages uid hospital d = true <-> administers (Some uid) hospital d.
Proof. apply is_hospital_admin_spec. Qed.

Lemma not_manages uid hospital d :
  ~ administers (Some uid) hospital d -> manages uid hospital d = false.
Proof.
  intros H. destruct (manages uid hospital d) eqn:E; [|reflexivity].
  now apply manages_spec in E.
Qed.

Lemma set_queue_status_same d : set_queue_status (queue_status d) d = d.
Proof. now destruct d. Qed.

(** The policy filters every row of a caller who does not administer the
    hospital. *)
Lemma update_filtered uid h p (f : queue_status_row -> queue_status_row) d :
  ~ administers (Some uid) (Some h) d ->
  Sql.update (fun q => Sql.and (queue_of (Some p) (Some h) q)
                               (Some (manages uid (q_hospital_id q) d)))
             f (queue_status d)
  = queue_status d.
Proof.
  intros Hno. apply update_none. intros q _.
  rewrite holds_and. destruct (Sql.holds (queue_of _ _ q)) eqn:E; [|reflexivity].
  apply queue_of_holds in E. destruct E as (p0 & h0 & _ & [= <-] & _ & ->).
  cbn. now rewrite not_manages.
Qed.

(** X5: [generateTokenNumber] for a caller who does not administer the
    hospital.  With a queue record the call returns total + 1 and the
    database is unchanged, the update being filtered by the row policy;
    without one the insert is refused and the call throws. *)
Theorem issue_without_write_access uid now queue_id h p d :
  ~ administers (Some uid) (Some h) d ->
  (forall q,
      Sql.select (queue_of (Some p) (Some h)) (queue_status d) = [q] ->
      in_int4 (js_or (total_tokens q) 0 + 1) = true ->
      run (generateTokenNumber uid now queue_id h p) d
      = (inr (js_or (total_tokens q) 0 + 1), d))
  /\ (Sql.select (queue_of (Some p) (Some h)) (queue_status d) = [] ->
      run (generateTokenNumber uid now queue_id h p) d
      = (inl row_security_violation, d)).
Proof.
  intros Hno. split.
  - intros q Hsel Hrange. rewrite generateTokenNumber_run, Hsel.
    unfold update_total_tokens. rewrite Hrange. cbn [negb].
    rewrite (update_filtered uid h p _ d Hno). now rewrite set_queue_status_same.
  - intros Hsel. rewrite generateTokenNumber_run, Hsel.
    unfold insert_queue_status. now rewrite not_manages.
Qed.

Lemma issue_without_write_access_witness :
  run (generateTokenNumber 20%N 7 2007%N 1%N 100%N) first_called
  = (inr 2, first_called)
  /\ run (generateTokenNumber 20%N 7 2007%N 1%N 101%N) first_called
     = (inl row_security_violation, first_called).
Proof.
  assert (Hno : ~ administers (Some 20%N) (Some 1%N) first_called)
    by (intros H%is_hospital_admin_spec; discriminate).
  destruct (issue_without_write_access 20%N 7 2007%N 1%N 100%N first_called Hno)
    as [H1 _].
  destruct (issue_without_write_access 20%N 7 2007%N 1%N 101%N first_called Hno)
    as [_ H2].
  split.
  - apply (H1 {| q_id := 1000%N; q_hospital_id := Some 1%N;
                 q_department_id := Some 100%N;
                 current_token := Some 1; total_tokens := Some 1;
                 updated_at := Some 0 |}); reflexivity.
  - apply H2. reflexivity.
Defined.

(** X4: when the department has no queue record, [generateTokenNumber] run
    by the hospital's administrator returns 1 and appends the record with
    current token 0 and total 1, which is then the department's only
    record. *)
Theorem issue_creates_missing_record uid now queue_id h p d :
  Sql.select (queue_of (Some p) (Some h)) (queue_status d) = [] ->
  administers (Some uid) (Some h) d ->
  (exists r, In r (departments d) /\ d_id r = p) ->
  (forall q, In q (queue_status d) -> q_id q <> queue_id) ->
  exists d',
    run (generateTokenNumber uid now queue_id h p) d = (inr 1, d')
    /\ queue_status d' =
       queue_status d ++
         [{| q_id := queue_id; q_hospital_id := Some h; q_department_id := Some p;
             current_token := Some 0; total_tokens := Some 1;
             updated_at := Some now |}]
    /\ Sql.select (queue_of (Some p) (Some h)) (queue_status d') =
       [{| q_id := queue_id; q_hospital_id := Some h; q_department_id := Some p;
           current_token := Some 0; total_tokens := Some 1;
           updated_at := Some now |}]
    /\ appointments d' = appointments d.
Proof.
  intros Hsel Hadm (r & Hr & Hrp) Hfresh.
  rewrite generateTokenNumber_run, Hsel. unfold insert_queue_status.
  rewrite (proj2 (manages_spec uid (Some h) d) Hadm). cbn [negb in_int4 andb].
  replace (existsb (fun q => (q_id q =? queue_id)%N) (queue_status d)) with false.
  2:{ symmetry. apply not_true_is_false. intros E. apply existsb_exists in E.
      destruct E as (q & Hq & E). apply N.eqb_eq in E. now apply (Hfresh q). }
  replace (Sql.exists_ (queue_of (Some p) (Some h)) (queue_status d)) with false.
  2:{ symmetry. apply not_true_is_false. intros E. apply existsb_exists in E.
      destruct E as (q & Hq & E).
      assert (H : In q (Sql.select (queue_of (Some p) (Some h)) (queue_status d)))
        by (apply filter_In; auto).
      now rewrite Hsel in H. }
  assert (Hh : references h_id (hospitals d) (Some h) = true).
  { destruct Hadm as (hr & u & Hin & [= ->] & _). cbn. apply existsb_exists.
    exists hr. split; [assumption|apply N.eqb_refl]. }
  assert (Hp : references d_id (departments d) (Some p) = true).
  { cbn. apply existsb_exists. exists r. split; [assumption|]. subst p. apply N.eqb_refl. }
  rewrite Hh, Hp. cbn.
  eexists. split; [reflexivity|]. cbn [queue_status set_queue_status appointments].
  split; [reflexivity|]. split; [|reflexivity].
  rewrite select_app, Hsel. cbn. now rewrite !N.eqb_refl.
Qed.

Lemma issue_creates_missing_record_witness :
  exists d',
    run (generateTokenNumber 10%N 8 2008%N 1%N 100%N) (set_queue_status [] sample)
    = (inr 1, d')
    /\ Sql.select (queue_of (Some 100%N) (Some 1%N)) (queue_status d') =
       [{| q_id := 2008%N; q_hospital_id := Some 1%N; q_department_id := Some 100%N;
           current_token := Some 0; total_tokens := Some 1; updated_at := Some 8 |}].
Proof.
  destruct (issue_creates_missing_record 10%N 8 2008%N 1%N 100%N
              (set_queue_status [] sample))
    as (d' & Hrun & _ & Hsel & _).
  - reflexivity.
  - apply is_hospital_admin_spec. reflexivity.
  - eexists. split; [now left|reflexivity].
  - intros q [].
  - exists d'. split; assumption.
Defined.

(** X6: at a total of 2147483647 the administrator's [generateTokenNumber]
    throws integer out of range and changes nothing. *)
Theorem issue_at_largest_total uid now queue_id h p d q :
  Sql.select (queue_of (Some p) (Some h)) (queue_status d) = [q] ->
  administers (Some uid) (Some h) d ->
  total_tokens q = Some int4_max ->
  run (generateTokenNumber uid now queue_id h p) d = (inl integer_out_of_range, d).
Proof.
  intros Hsel _ Htot. rewrite generateTokenNumber_run, Hsel, Htot.
  reflexivity.
Qed.

Lemma issue_at_largest_total_witness :
  run (generateTokenNumber 10%N 1 2001%N 1%N 100%N) sample_at_max
  = (inl integer_out_of_range, sample_at_max).
Proof.
  apply (issue_at_largest_total 10%N 1 2001%N 1%N 100%N sample_at_max
           {| q_id := 1000%N; q_hospital_id := Some 1%N; q_department_id := Some 100%N;
              current_token := Some int4_max; total_tokens := Some int4_max;
              updated_at := Some 0 |}).
  - reflexivity.
  - apply is_hospital_admin_spec. reflexivity.
  - reflexivity.
Defined.

(** ** calculateEstimatedTime *)




(** ** onSubmit *)

Lemma insert_appointment_cases uid a d :
  (exists e, insert_appointment uid a d = (inl e, d))
  \/ insert_appointment uid a d = (inr a, set_appointments (appointments d ++ [a]) d).
Proof.
  unfold insert_appointment.
  repeat match goal with
         | |- context [if ?b then _ else _] => destruct b
         end; eauto.
Qed.

Lemma onSubmit_result uid now queue_id appointment_id data d :
  exists r d1,
    run (generateTokenNumber uid now queue_id (hospitalId data) (departmentId data)) d
    = (r, d1)
    /\ (run (onSubmit (Some uid) now queue_id appointment_id data) d
        = (inr booking_failed, d1)
        \/ exists n est,
             r = inr n
             /\ run (calculateEstimatedTime now (hospitalId data) (departmentId data) n) d1
                = (inr est, d1)
             /\ insert_appointment uid (booking_row uid now appointment_id data n est) d1
                = (inr (booking_row uid now appointment_id data n est),
                   set_appointments
                     (appointments d1 ++ [booking_row uid now appointment_id data n est])
                     d1)
             /\ run (onSubmit (Some uid) now queue_id appointment_id data) d
                = (inr (booked (booking_row uid now appointment_id data n est)),
                   set_appointments
                     (appointments d1 ++ [booking_row uid now appointment_id data n est])
                     d1)).
Proof.
  unfold onSubmit. rewrite run_try_catch, run_then.
  destruct (run (generateTokenNumber _ _ _ _ _) d) as [[e|n] d1].
  - exists (inl e), d1. split; [reflexivity|]. now left.
  - exists (inr n), d1. split; [reflexivity|].
    rewrite run_then.
    pose proof (calculateEstimatedTime_run now (hospitalId data) (departmentId data) n d1)
      as Hcalc.
    destruct (run (calculateEstimatedTime _ _ _ _) d1) as [[e|est] d2] eqn:Hest;
      cbn [snd] in Hcalc; subst d2.
    + now left.
    + cbn [run]. fold (booking_row uid now appointment_id data n est).
      destruct (insert_appointment_cases uid
                  (booking_row uid now appointment_id data n est) d1) as [[e He]|Hok].
      * left. now rewrite He.
      * right. exists n, est. rewrite Hok. cbn [run].
        split; [reflexivity|]. split; [exact Hest|]. split; reflexivity.
Qed.

(** X8: what [onSubmit] can change.  Users, hospitals and departments are
    never touched; without a signed-in user nothing is; a booking that
    reports success has appended exactly one appointment, Waiting, owned by
    the user, for the chosen hospital and department, with the token
    [generateTokenNumber] returned; a booking that fails leaves the
    appointments as they were. *)
Theorem booking_frame user now queue_id appointment_id data d :
  users (snd (run (onSubmit user now queue_id appointment_id data) d)) = users d
  /\ hospitals (snd (run (onSubmit user now queue_id appointment_id data) d))
     = hospitals d
  /\ departments (snd (run (onSubmit user now queue_id appointment_id data) d))
     = departments d
  /\ (user = None ->
      run (onSubmit user now queue_id appointment_id data) d = (inr login_required, d))
  /\ (forall a,
        fst (run (onSubmit user now queue_id appointment_id data) d) = inr (booked a) ->
        appointments (snd (run (onSubmit user now queue_id appointment_id data) d))
        = appointments d ++ [a]
        /\ status a = Some waiting
        /\ a_user_id a = user
        /\ a_id a = appointment_id
        /\ a_hospital_id a = Some (hospitalId data)
        /\ a_department_id a = Some (departmentId data)
        /\ exists uid,
             user = Some uid
             /\ fst (run (generateTokenNumber uid now queue_id
                            (hospitalId data) (departmentId data)) d)
                = inr (token_number a))
  /\ ((forall a,
         fst (run (onSubmit user now queue_id appointment_id data) d)
         <> inr (booked a)) ->
      appointments (snd (run (onSubmit user now queue_id appointment_id data) d))
      = appointments d).
Proof.
  destruct user as [uid|].
  2:{ cbn. repeat split; discriminate. }
  destruct (onSubmit_result uid now queue_id appointment_id data d)
    as (r & d1 & Hgen & H).
  pose proof (generateTokenNumber_cases _ _ _ _ _ _ _ _ Hgen)
    as (Hu & Hh & Hd & Ha & _).
  destruct H as [->|(n & est & -> & _ & _ & ->)]; cbn [fst snd];
    cbn [users hospitals departments appointments set_appointments];
    (split; [assumption|]); (split; [assumption|]); (split; [assumption|]);
    (split; [discriminate|]); split.
  - intros a [=].
  - intros _. assumption.
  - intros a [= <-]. rewrite Ha. repeat split. exists uid. split; [reflexivity|].
    now rewrite Hgen.
  - intros Hno. exfalso. now apply (Hno (booking_row uid now appointment_id data n est)).
Qed.

Lemma booking_frame_witness :
  appointments (snd (run (onSubmit (Some 20%N) 4 2004%N 3004%N sample_form) sample))
  = appointments sample ++ [booking_row 20%N 4 3004%N sample_form 1 4].
Proof.
  destruct (booking_frame (Some 20%N) 4 2004%N 3004%N sample_form sample)
    as (_ & _ & _ & _ & H & _).
  apply (H (booking_row 20%N 4 3004%N sample_form 1 4)). reflexivity.
Defined.





(** ** The queue tracker *)

Lemma fetchQueueStatus_run h p s d :
  run (fetchQueueStatus (Some h) (Some p) s) d =
  (inr {| tracked := tracked s;
          queueStatus :=
            match Sql.select (queue_of (Some p) (Some h)) (queue_status d) with
            | [q] => Some q
            | _ => None
            end |},
   d).
Proof.
  unfold fetchQueueStatus, select_queue_status. cbn [run].
  now destruct (Sql.select _ (queue_status d)) as [|q [|q' rest]].
Qed.

(** X10: after a successful [advance_queue] and a refresh of the tracker,
    the position shown for the tracked appointment is one less than before
    (never below 0); the appointment called gets 'your turn', the one after
    it 'you are next'. *)
Theorem advance_lowers_position caller now h p d q c s a :
  Sql.select (queue_of (Some p) (Some h)) (queue_status d) = [q] ->
  current_token q = Some c ->
  int4_min <= c < int4_max ->
  administers caller (Some h) d ->
  tracked s = Some a ->
  a_hospital_id (appointment a) = Some h ->
  a_department_id (appointment a) = Some p ->
  queueStatus s = Some q ->
  exists s',
    run (handleRefresh s) (snd (rpc (advance_queue caller now (Some p) (Some h)) d))
    = (inr s', snd (rpc (advance_queue caller now (Some p) (Some h)) d))
    /\ tracked s' = tracked s
    /\ getQueuePosition s' = Z.max 0 (getQueuePosition s - 1)
    /\ (token_number (appointment a) = c + 1 -> getStatusMessage s' = your_turn)
    /\ (token_number (appointment a) = c + 2 -> getStatusMessage s' = you_are_next).
Proof.
  intros Hsel Hc Hrange Hadm%is_hospital_admin_spec Ha Hh Hp Hq.
  assert (Hcur : currentToken (Some p) (Some h) d = Some c).
  { unfold currentToken, Sql.select_into. now rewrite Hsel. }
  destruct (advance_queue_run caller now (Some p) (Some h) d (Some (c + 1)) Hadm)
    as (d' & Hrun & _ & _ & _ & Hqs & _).
  { rewrite Hcur. now apply int4_succ. }
  rewrite Hrun. cbn [snd].
  unfold handleRefresh. rewrite Ha, Hh, Hp, fetchQueueStatus_run.
  rewrite Hqs, select_update, Hsel by reflexivity. cbn [Sql.update map].
  rewrite (proj2 (first_selected _ _ _ _ Hsel)).
  eexists. split; [reflexivity|]. cbn [tracked]. split; [congruence|].
  unfold getStatusMessage, getQueuePosition. cbn [tracked queueStatus current_token].
  rewrite ?Ha, Hq, Hc. cbn [js_number].
  split; [lia|]. split; intros ->.
  - replace (Z.max 0 (c + 1 - (c + 1))) with 0 by lia. reflexivity.
  - replace (Z.max 0 (c + 2 - (c + 1))) with 1 by lia. reflexivity.
Qed.

Lemma advance_lowers_position_witness :
  exists s',
    run (handleRefresh {| tracked := Some (embed late_booking (booked_row 2 2 waiting));
                          queueStatus := hd_error (queue_status late_booking) |})
        (snd (rpc (advance_queue (Some 10%N) 9 (Some 100%N) (Some 1%N)) late_booking))
    = (inr s', snd (rpc (advance_queue (Some 10%N) 9 (Some 100%N) (Some 1%N)) late_booking))
    /\ getQueuePosition s' = 0.
Proof.
  destruct (advance_lowers_position (Some 10%N) 9 1%N 100%N late_booking
              {| q_id := 1000%N; q_hospital_id := Some 1%N;
                 q_department_id := Some 100%N;
                 current_token := Some 2; total_tokens := Some 2;
                 updated_at := Some 2 |}
              2
              {| tracked := Some (embed late_booking (booked_row 2 2 waiting));
                 queueStatus := hd_error (queue_status late_booking) |}
              (embed late_booking (booked_row 2 2 waiting)))
    as (s' & Hrun & _ & Hpos & _).
  - reflexivity.
  - reflexivity.
  - unfold int4_min, int4_max. lia.
  - apply is_hospital_admin_spec. reflexivity.
  - reflexivity.
  - reflexivity.
  - reflexivity.
  - reflexivity.
  - exists s'. split; [exact Hrun|]. rewrite Hpos. reflexivity.
Defined.



(** ** ORDER BY created_at DESC *)

Section OrderBy.

Context {R : Type} (key : R -> option Z).

Lemma newer_or_same_total (x y : option Z) :
  newer_or_same x y = true \/ newer_or_same y x = true.
Proof.
  destruct x, y; cbn; auto. destruct (Z.leb_spec z0 z); [now left|right].
  apply Z.leb_le. lia.
Qed.

Lemma newer_or_same_trans (x y z : option Z) :
  newer_or_same x y = true -> newer_or_same y z = true -> newer_or_same x z = true.
Proof.
  destruct x, y, z; cbn; try discriminate; auto.
  rewrite !Z.leb_le. lia.
Qed.

Lemma insert_by_perm r t : Permutation (r :: t) (insert_by key r t).
Proof.
  induction t as [|r' t IH]; cbn; [reflexivity|].
  destruct (newer_or_same _ _); [reflexivity|].
  rewrite perm_swap. now constructor.
Qed.

Lemma order_by_desc_perm t : Permutation t (order_by_desc key t).
Proof.
  induction t as [|r t IH]; cbn; [constructor|].
  rewrite <- insert_by_perm. now constructor.
Qed.

Lemma insert_by_sorted r t :
  Sorted (newest_first key) t -> Sorted (newest_first key) (insert_by key r t).
Proof.
  induction 1 as [|r' t Hs IH Hhd]; cbn; [repeat constructor|].
  destruct (newer_or_same (key r) (key r')) eqn:E.
  - constructor; [now constructor|]. now constructor.
  - constructor; [assumption|].
    assert (Hr : newest_first key r' r).
    { destruct (newer_or_same_total (key r') (key r)) as [H|H]; [exact H|congruence]. }
    destruct t as [|r'' t]; cbn; [now constructor|].
    destruct (newer_or_same (key r) (key r'')); constructor; [assumption|].
    now inversion Hhd.
Qed.

Lemma order_by_desc_sorted t : StronglySorted (newest_first key) (order_by_desc key t).
Proof.
  apply Sorted_StronglySorted.
  - intros x y z. apply newer_or_same_trans.
  - induction t as [|r t IH]; cbn; [constructor|]. now apply insert_by_sorted.
Qed.

Lemma in_firstn n (t : list R) x : In x (firstn n t) -> In x t.
Proof.
  revert t. induction n as [|n IH]; intros [|r t]; cbn; try contradiction.
  intros [->|H]; [now left|right; now apply IH].
Qed.

Lemma firstn_sorted n (t : list R) :
  StronglySorted (newest_first key) t -> StronglySorted (newest_first key) (firstn n t).
Proof.
  intros H. revert n. induction H as [|r t Hs IH Hall]; intros [|n]; cbn;
    try constructor; auto.
  apply Forall_forall. intros x Hx. apply in_firstn in Hx.
  now apply (proj1 (Forall_forall _ _) Hall).
Qed.

Lemma order_by_desc_in t x : In x (order_by_desc key t) <-> In x t.
Proof.
  split; apply Permutation_in; [symmetry|]; apply order_by_desc_perm.
Qed.

End OrderBy.

(** ** Listing appointments *)

Lemma active_filter uid d a :
  (can_read uid d a && Sql.holds (Sql.eq_uuid (a_user_id a) (Some uid)) && active a) = true
  <-> a_user_id a = Some uid /\ active a = true.
Proof.
  unfold can_read. rewrite !andb_true_iff, orb_true_iff, holds_eq_uuid. split.
  - intros [[_ (v & Hv & [= <-])] Ha]. auto.
  - intros [Hu Ha]. repeat split; eauto.
Qed.

Lemma select_active_appointments_spec uid d :
  exists rows,
    select_active_appointments uid d = (inr (map (embed d) rows), d)
    /\ (forall a, In a rows <->
                  In a (appointments d) /\ a_user_id a = Some uid /\ active a = true)
    /\ StronglySorted (newest_first created_at) rows
    /\ Permutation rows
         (filter (fun a => can_read uid d a
                           && Sql.holds (Sql.eq_uuid (a_user_id a) (Some uid))
                           && active a) (appointments d)).
Proof.
  unfold select_active_appointments.
  eexists. split; [reflexivity|]. split; [|split].
  - intros a. rewrite order_by_desc_in, filter_In, active_filter. reflexivity.
  - apply order_by_desc_sorted.
  - symmetry. apply order_by_desc_perm.
Qed.

(** X12: [fetchActiveAppointments] changes nothing and lists exactly the
    signed-in user's Waiting and Ready appointments, each once per row,
    newest first. *)
Theorem active_appointments_listed uid old d :
  exists rows,
    run (fetchActiveAppointments (Some uid) old) d = (inr (map (embed d) rows), d)
    /\ (forall a, In a rows <->
                  In a (appointments d) /\ a_user_id a = Some uid /\ active a = true)
    /\ StronglySorted (newest_first created_at) rows
    /\ length rows
       = length (filter (fun a => Sql.holds (Sql.eq_uuid (a_user_id a) (Some uid))
                                  && active a) (appointments d)).
Proof.
  destruct (select_active_appointments_spec uid d) as (rows & Hsel & Hin & Hs & Hp).
  exists rows. unfold fetchActiveAppointments. cbn [run]. rewrite Hsel. cbn [run].
  split; [reflexivity|]. split; [assumption|]. split; [assumption|].
  rewrite (Permutation_length Hp). f_equal. apply filter_ext. intros a.
  unfold can_read.
  destruct (Sql.holds (Sql.eq_uuid (a_user_id a) (Some uid))),
    (manages uid (a_hospital_id a) d); reflexivity.
Qed.

Lemma fetchQueueStatus_tracked oh op s d :
  exists s', run (fetchQueueStatus oh op s) d = (inr s', d) /\ tracked s' = tracked s.
Proof.
  destruct oh as [h|], op as [p|]; try (exists s; split; reflexivity).
  rewrite fetchQueueStatus_run. eexists. split; reflexivity.
Qed.

(** X13: [fetchLatestAppointment] leaves the tracker as it is when the user
    has no Waiting or Ready appointment; otherwise it tracks one of them,
    and none of them is newer. *)
Theorem latest_appointment_tracked uid s d :
  ((forall a, In a (appointments d) -> a_user_id a = Some uid -> active a = false) ->
   run (fetchLatestAppointment (Some uid) s) d = (inr s, d))
  /\ (forall a, In a (appointments d) -> a_user_id a = Some uid -> active a = true ->
      exists s' x,
        run (fetchLatestAppointment (Some uid) s) d = (inr s', d)
        /\ tracked s' = Some (embed d x)
        /\ In x (appointments d) /\ a_user_id x = Some uid /\ active x = true
        /\ forall b, In b (appointments d) -> a_user_id b = Some uid ->
                     active b = true -> newest_first created_at x b).
Proof.
  destruct (select_active_appointments_spec uid d) as (rows & Hsel & Hin & Hs & _).
  unfold fetchLatestAppointment. cbn [run]. rewrite Hsel. split.
  - intros Hnone. destruct rows as [|x rows]; [reflexivity|].
    destruct (proj1 (Hin x) (or_introl eq_refl)) as (H1 & H2 & H3).
    rewrite (Hnone x H1 H2) in H3. discriminate.
  - intros a Ha Hu Hact.
    destruct rows as [|x rows].
    { exfalso. apply (proj2 (Hin a)); auto. }
    cbn [map hd_error].
    destruct (fetchQueueStatus_tracked
                (a_hospital_id (appointment (embed d x)))
                (a_department_id (appointment (embed d x)))
                {| tracked := Some (embed d x); queueStatus := queueStatus s |} d)
      as (s' & Hrun & Htr).
    exists s', x. split; [exact Hrun|]. split; [exact Htr|].
    destruct (proj1 (Hin x) (or_introl eq_refl)) as (H1 & H2 & H3).
    repeat split; try assumption.
    intros b Hb Hbu Hba.
    assert (Hbin : In b (x :: rows)) by (apply Hin; auto).
    destruct Hbin as [<-|Hbin].
    + unfold newest_first. destruct (newer_or_same_total (created_at x) (created_at x));
        assumption.
    + inversion Hs as [|? ? _ Hall]. subst.
      now apply (proj1 (Forall_forall _ _) Hall).
Qed.

Lemma latest_appointment_tracked_witness :
  exists s' x,
    run (fetchLatestAppointment (Some 10%N) {| tracked := None; queueStatus := None |})
        late_booking
    = (inr s', late_booking)
    /\ tracked s' = Some (embed late_booking x)
    /\ a_id x = 3002%N.
Proof.
  destruct (latest_appointment_tracked 10%N {| tracked := None; queueStatus := None |}
              late_booking) as [_ H].
  destruct (H (booked_row 2 2 waiting)) as (s' & x & Hrun & Htr & _ & _ & _ & Hnew).
  - right. now left.
  - reflexivity.
  - reflexivity.
  - exists s', x. split; [exact Hrun|]. split; [exact Htr|].
    revert Hrun Htr. vm_compute. intros [= <-]. intros [= <-]. reflexivity.
Defined.

(** ** get_patient_history *)

Lemma in_flat_map_join (d : db) (patient : option uuid) (j : history_row) :
  In j (flat_map
          (fun a =>
             flat_map
               (fun h =>
                  map (fun p => (a, h, p))
                      (Sql.select
                         (fun p => Sql.eq_uuid (a_department_id a) (Some (d_id p)))
                         (departments d)))
               (Sql.select (fun h => Sql.eq_uuid (a_hospital_id a) (Some (h_id h)))
                           (hospitals d)))
          (Sql.select (fun a => Sql.eq_uuid (a_user_id a) patient) (appointments d)))
  <-> (In (fst (fst j)) (appointments d) /\ In (snd (fst j)) (hospitals d)
       /\ In (snd j) (departments d)
       /\ (exists u, a_user_id (fst (fst j)) = Some u /\ patient = Some u)
       /\ a_hospital_id (fst (fst j)) = Some (h_id (snd (fst j)))
       /\ a_department_id (fst (fst j)) = Some (d_id (snd j))).
Proof.
  destruct j as [[a h] p]. cbn [fst snd].
  rewrite in_flat_map. split.
  - intros (a' & Ha & Hj). apply filter_In in Ha. destruct Ha as [Ha Hu].
    apply in_flat_map in Hj. destruct Hj as (h' & Hh & Hj).
    apply filter_In in Hh. destruct Hh as [Hh Hhe].
    apply in_map_iff in Hj. destruct Hj as (p' & [= <- <- <-] & Hp).
    apply filter_In in Hp. destruct Hp as [Hp Hpe].
    apply holds_eq_uuid in Hu, Hhe, Hpe.
    destruct Hhe as (v & Hv & [= <-]). destruct Hpe as (w & Hw & [= <-]).
    repeat split; auto.
  - intros (Ha & Hh & Hp & (u & Hu & ->) & Hhe & Hpe).
    exists a. split.
    + apply filter_In. split; [assumption|]. apply holds_eq_uuid. eauto.
    + apply in_flat_map. exists h. split.
      * apply filter_In. split; [assumption|]. apply holds_eq_uuid. eauto.
      * apply in_map_iff. exists p. split; [reflexivity|].
        apply filter_In. split; [assumption|]. apply holds_eq_uuid. eauto.
Qed.

(** X14: [get_patient_history] changes nothing and returns at most 20 rows,
    newest first; each row is an appointment of [patient_id_param] with the
    hospital and the department its foreign keys name; for a NULL
    [patient_id_param] it returns no row. *)
Theorem patient_history_newest_twenty patient_id_param d :
  exists rows,
    rpc (get_patient_history patient_id_param) d = (inr rows, d)
    /\ (length rows <= 20)%nat
    /\ StronglySorted (newest_first history_created) rows
    /\ (forall j, In j rows ->
          In (fst (fst j)) (appointments d)
          /\ (exists u, a_user_id (fst (fst j)) = Some u /\ patient_id_param = Some u)
          /\ In (snd (fst j)) (hospitals d)
          /\ a_hospital_id (fst (fst j)) = Some (h_id (snd (fst j)))
          /\ In (snd j) (departments d)
          /\ a_department_id (fst (fst j)) = Some (d_id (snd j)))
    /\ (patient_id_param = None -> rows = []).
Proof.
  unfold get_patient_history, rpc, query.
  eexists. split; [reflexivity|]. split; [|split; [|split]].
  - apply firstn_le_length.
  - apply firstn_sorted. apply (order_by_desc_sorted history_created).
  - intros j Hj. apply in_firstn in Hj.
    apply (proj1 (order_by_desc_in _ _ _)) in Hj.
    apply (proj1 (in_flat_map_join _ _ _)) in Hj. tauto.
  - intros ->.
    rewrite (select_none (fun a => Sql.eq_uuid (a_user_id a) None)); [reflexivity|].
    intros a _. unfold Sql.eq_uuid, Sql.eq. now destruct (a_user_id a).
Qed.

(** ** Departments *)

Lemma filter_all {R} (f : R -> bool) (t : list R) :
  (forall r, In r t -> f r = true) -> filter f t = t.
Proof.
  induction t as [|r t IH]; simpl; intros H; [reflexivity|].
  rewrite (H r (or_introl eq_refl)). f_equal. apply IH. intros x Hx. apply H. now right.
Qed.

Lemma existsb_fresh {R} (key : R -> uuid) (t : list R) id :
  (forall r, In r t -> key r <> id) -> existsb (fun r => N.eqb (key r) id) t = false.
Proof.
  intros H. destruct (existsb _ t) eqn:E; [|reflexivity].
  apply existsb_exists in E. destruct E as (r & Hr & E).
  apply N.eqb_eq in E. now destruct (H r Hr).
Qed.

Lemma references_hospital caller h d :
  administers caller (Some h) d -> references h_id (hospitals d) (Some h) = true.
Proof.
  intros (r & u & Hin & [= ->] & _). cbn. apply existsb_exists.
  exists r. split; [assumption|apply N.eqb_refl].
Qed.

Lemma no_record_of_department p h (t : list queue_status_row) :
  (forall q, In q t -> q_department_id q <> Some p) ->
  Sql.select (queue_of (Some p) (Some h)) t = [].
Proof.
  intros H. apply select_none. intros q Hq.
  destruct (Sql.holds (queue_of (Some p) (Some h) q)) eqn:E; [|reflexivity].
  apply queue_of_holds in E. destruct E as (p0 & h0 & [= <-] & _ & Hp & _).
  now destruct (H q Hq).
Qed.

Lemma holds_queue_of_own p h i c t u :
  Sql.holds (queue_of (Some p) (Some h)
               {| q_id := i; q_hospital_id := Some h; q_department_id := Some p;
                  current_token := c; total_tokens := t; updated_at := u |}) = true.
Proof. apply queue_of_holds. exists p, h. repeat split. Qed.

(** X17: creating a department as the hospital's administrator appends the
    department and its queue record with both counters at 0, changes nothing
    else, and the first token then issued for it is 1. *)
Theorem new_department_starts_at_zero uid now h department_id queue_id next_queue_id data d :
  administers (Some uid) (Some h) d ->
  in_int4 (avgTimePerPatient data) = true ->
  (forall r, In r (departments d) -> d_id r <> department_id) ->
  (forall q, In q (queue_status d) ->
             q_id q <> queue_id /\ q_department_id q <> Some department_id) ->
  exists d',
    run (saveDepartment uid now None h department_id queue_id data) d
    = (inr department_created, d')
    /\ users d' = users d /\ hospitals d' = hospitals d
    /\ appointments d' = appointments d
    /\ departments d'
       = departments d ++ [ {| d_id := department_id; d_hospital_id := Some h;
                               avg_time_per_patient := Some (avgTimePerPatient data) |} ]
    /\ queue_status d'
       = queue_status d ++ [ {| q_id := queue_id; q_hospital_id := Some h;
                                q_department_id := Some department_id;
                                current_token := Some 0; total_tokens := Some 0;
                                updated_at := Some now |} ]
    /\ currentToken (Some department_id) (Some h) d' = Some 0
    /\ totalIssued (Some department_id) (Some h) d' = Some 0
    /\ fst (run (generateTokenNumber uid now next_queue_id h department_id) d') = inr 1.
Proof.
  intros Hadmin Havg Hfresh Hq.
  assert (Hm : manages uid (Some h) d = true) by now apply manages_spec.
  assert (Hnone : Sql.select (queue_of (Some department_id) (Some h)) (queue_status d) = []).
  { apply no_record_of_department. intros q Hin. now apply Hq. }
  eexists. split.
  - unfold saveDepartment. rewrite run_try_catch. cbn [run].
    unfold insert_department at 1. rewrite Hm, Havg. cbn [negb].
    rewrite (existsb_fresh d_id), (references_hospital _ _ _ Hadmin) by assumption.
    cbn [negb run d_id].
    unfold insert_queue_status, manages, is_hospital_admin. cbn [hospitals queue_status].
    fold (is_hospital_admin (Some uid) (Some h) d). fold (manages uid (Some h) d).
    rewrite Hm. cbn [negb in_int4 andb].
    replace (in_int4 0) with true by reflexivity. cbn [andb negb].
    rewrite (existsb_fresh q_id) by (intros q Hin; now apply Hq).
    unfold Sql.exists_. fold (Sql.exists_ (queue_of (Some department_id) (Some h))
                                           (queue_status d)).
    replace (Sql.exists_ (queue_of (Some department_id) (Some h)) (queue_status d))
      with false.
    2:{ symmetry. destruct (Sql.exists_ _ (queue_status d)) eqn:E; [|reflexivity].
        unfold Sql.exists_ in E. apply existsb_exists in E. destruct E as (q & Hin & E).
        apply queue_of_holds in E. destruct E as (p0 & h0 & [= <-] & _ & Hp & _).
        now destruct (proj2 (Hq q Hin)). }
    cbn [orb departments]. rewrite (references_hospital _ _ _ Hadmin).
    unfold references. rewrite existsb_app. cbn [existsb d_id].
    rewrite N.eqb_refl, orb_true_r. cbn [orb andb negb run].
    reflexivity.
  - cbn [users hospitals appointments departments queue_status set_queue_status].
    repeat (split; [reflexivity|]).
    assert (Hsel : forall t0,
      Sql.select (queue_of (Some department_id) (Some h))
        (queue_status d ++
           [ {| q_id := queue_id; q_hospital_id := Some h;
                q_department_id := Some department_id;
                current_token := Some 0; total_tokens := t0;
                updated_at := Some now |} ])
      = [ {| q_id := queue_id; q_hospital_id := Some h;
             q_department_id := Some department_id;
             current_token := Some 0; total_tokens := t0;
             updated_at := Some now |} ]).
    { intros t0. rewrite select_app, Hnone. unfold Sql.select. cbn [filter app].
      now rewrite holds_queue_of_own. }
    split; [|split].
    + unfold currentToken, Sql.select_into. cbn [queue_status set_queue_status].
      now rewrite Hsel.
    + unfold totalIssued, Sql.select_into. cbn [queue_status set_queue_status].
      now rewrite Hsel.
    + rewrite generateTokenNumber_run. cbn [queue_status set_queue_status]. rewrite Hsel.
      cbn [total_tokens]. unfold update_total_tokens.
      replace (in_int4 (js_or (Some 0) 0 + 1)) with true by reflexivity.
      reflexivity.
Qed.

Lemma new_department_starts_at_zero_witness :
  exists d',
    run (saveDepartment 10%N 5 None 1%N 101%N 1001%N
           {| name := "Cardiology"; avgTimePerPatient := 30 |}) first_called
    = (inr department_created, d')
    /\ totalIssued (Some 101%N) (Some 1%N) d' = Some 0
    /\ fst (run (generateTokenNumber 10%N 5 1002%N 1%N 101%N) d') = inr 1.
Proof.
  destruct (new_department_starts_at_zero 10%N 5 1%N 101%N 1001%N 1002%N
              {| name := "Cardiology"; avgTimePerPatient := 30 |} first_called)
    as (d' & Hrun & _ & _ & _ & _ & _ & _ & Ht & Hnext).
  - apply is_hospital_admin_spec. reflexivity.
  - reflexivity.
  - intros r [<-|[]]. discriminate.
  - intros q [<-|[]]. split; discriminate.
  - exists d'. split; [exact Hrun|]. split; [exact Ht|exact Hnext].
Defined.

(** A caller who administers none of the hospitals a department row points
    to passes no row of it through the policy. *)
Lemma department_filtered uid id d :
  (forall r, In r (departments d) -> d_id r = id ->
             ~ administers (Some uid) (d_hospital_id r) d) ->
  forall r, In r (departments d) ->
    Sql.holds (Sql.and (Sql.eq_uuid (Some (d_id r)) (Some id))
                       (Some (manages uid (d_hospital_id r) d))) = false.
Proof.
  intros H r Hr. rewrite holds_and.
  destruct (Sql.holds (Sql.eq_uuid _ _)) eqn:E; [|reflexivity].
  apply holds_eq_uuid in E. destruct E as (v & [= Hv] & [= Hid]).
  rewrite (not_manages uid (d_hospital_id r) d); [reflexivity|]. apply H; congruence.
Qed.

Lemma delete_department_filtered uid id d :
  (forall r, In r (departments d) ->
     Sql.holds (Sql.and (Sql.eq_uuid (Some (d_id r)) (Some id))
                        (Some (manages uid (d_hospital_id r) d))) = false) ->
  delete_department uid id d = (inr tt, d).
Proof.
  intros H. unfold delete_department. f_equal.
  assert (Hgone : forall x,
    match x with
    | Some v =>
        existsb (fun r =>
          Sql.holds (Sql.and (Sql.eq_uuid (Some (d_id r)) (Some id))
                             (Some (manages uid (d_hospital_id r) d)))
          && N.eqb (d_id r) v) (departments d)
    | None => false
    end = false).
  { intros [v|]; [|reflexivity].
    destruct (existsb _ (departments d)) eqn:E; [|reflexivity].
    apply existsb_exists in E. destruct E as (r & Hr & E).
    rewrite (H r Hr) in E. discriminate. }
  apply db_ext; cbn [users hospitals departments queue_status appointments];
    try reflexivity; apply filter_all.
  - intros r Hr. now rewrite (H r Hr).
  - intros q _. now rewrite Hgone.
  - intros a _. now rewrite Hgone.
Qed.

(** X18: for a user who does not administer the hospital, creating a
    department reports a failure, while editing and deleting one report
    success; none of the three changes the database. *)
Theorem department_changes_refused uid now h department_id queue_id data edited d :
  ~ administers (Some uid) (Some h) d ->
  (forall r, In r (departments d) -> d_id r = d_id edited ->
             ~ administers (Some uid) (d_hospital_id r) d) ->
  in_int4 (avgTimePerPatient data) = true ->
  run (saveDepartment uid now None h department_id queue_id data) d = (inr save_failed, d)
  /\ run (saveDepartment uid now (Some edited) h department_id queue_id data) d
     = (inr department_updated, d)
  /\ run (handleDelete uid (Some edited) true) d = (inr department_deleted, d).
Proof.
  intros Hno Hrows Havg. split; [|split].
  - unfold saveDepartment. rewrite run_try_catch. cbn [run].
    unfold insert_department. now rewrite not_manages.
  - unfold saveDepartment. rewrite run_try_catch. cbn [run].
    unfold update_department. rewrite Havg. cbn [negb run].
    rewrite update_none by now apply department_filtered.
    now rewrite db_eta.
  - unfold handleDelete. cbn [negb]. rewrite run_try_catch. cbn [run].
    rewrite delete_department_filtered by now apply department_filtered.
    reflexivity.
Qed.

Lemma department_changes_refused_witness :
  run (saveDepartment 20%N 5 None 1%N 101%N 1001%N
         {| name := "Cardiology"; avgTimePerPatient := 30 |}) first_called
  = (inr save_failed, first_called)
  /\ run (saveDepartment 20%N 5
            (Some {| d_id := 100%N; d_hospital_id := Some 1%N;
                     avg_time_per_patient := Some 15 |})
            1%N 101%N 1001%N
            {| name := "Cardiology"; avgTimePerPatient := 30 |}) first_called
     = (inr department_updated, first_called)
  /\ run (handleDelete 20%N
            (Some {| d_id := 100%N; d_hospital_id := Some 1%N;
                     avg_time_per_patient := Some 15 |}) true) first_called
     = (inr department_deleted, first_called).
Proof.
  apply department_changes_refused.
  - intros H%is_hospital_admin_spec. discriminate.
  - intros r [<-|[]] _ H%is_hospital_admin_spec. discriminate.
  - reflexivity.
Defined.

(** X19: deleting a department as its hospital's administrator removes the
    department, its queue record and all of its appointments, whatever their
    status; the rows of every other department, the users and the hospitals
    stay. *)
Theorem department_deleted_with_its_rows uid edited d :
  (forall r, In r (departments d) -> d_id r = d_id edited ->
             administers (Some uid) (d_hospital_id r) d) ->
  (exists r, In r (departments d) /\ d_id r = d_id edited) ->
  exists d',
    run (handleDelete uid (Some edited) true) d = (inr department_deleted, d')
    /\ users d' = users d /\ hospitals d' = hospitals d
    /\ (forall r, In r (departments d') <-> In r (departments d) /\ d_id r <> d_id edited)
    /\ (forall q, In q (queue_status d') <->
                  In q (queue_status d) /\ q_department_id q <> Some (d_id edited))
    /\ (forall a, In a (appointments d') <->
                  In a (appointments d) /\ a_department_id a <> Some (d_id edited)).
Proof.
  intros Hadmin (r0 & Hr0 & Hid0).
  assert (Hdoomed : forall r, In r (departments d) ->
    Sql.holds (Sql.and (Sql.eq_uuid (Some (d_id r)) (Some (d_id edited)))
                       (Some (manages uid (d_hospital_id r) d)))
    = N.eqb (d_id r) (d_id edited)).
  { intros r Hr. rewrite holds_and. unfold Sql.eq_uuid, Sql.eq. cbn [Sql.holds].
    destruct (N.eqb_spec (d_id r) (d_id edited)) as [E|E]; [|reflexivity].
    rewrite (proj2 (manages_spec uid (d_hospital_id r) d)); [reflexivity|].
    now apply Hadmin. }
  assert (Hgone : forall x,
    match x with
    | Some v =>
        existsb (fun r =>
          Sql.holds (Sql.and (Sql.eq_uuid (Some (d_id r)) (Some (d_id edited)))
                             (Some (manages uid (d_hospital_id r) d)))
          && N.eqb (d_id r) v) (departments d)
    | None => false
    end = true <-> x = Some (d_id edited)).
  { intros [v|]; [|split; discriminate]. rewrite existsb_exists. split.
    - intros (r & Hr & E). rewrite (Hdoomed r Hr) in E.
      apply andb_true_iff in E. destruct E as [E1 E2].
      apply N.eqb_eq in E1, E2. f_equal. now rewrite <- E2, E1.
    - intros [= ->]. exists r0. split; [assumption|].
      rewrite (Hdoomed r0 Hr0), Hid0. now rewrite N.eqb_refl. }
  eexists. split.
  - unfold handleDelete. cbn [negb]. rewrite run_try_catch. cbn [run].
    unfold delete_department. cbn [run]. reflexivity.
  - cbn [users hospitals departments queue_status appointments].
    split; [reflexivity|]. split; [reflexivity|]. split; [|split].
    + intros r. rewrite filter_In. split.
      * intros [Hr E]. split; [assumption|]. rewrite (Hdoomed r Hr) in E.
        intros Heq. rewrite Heq, N.eqb_refl in E. discriminate.
      * intros [Hr E]. split; [assumption|]. rewrite (Hdoomed r Hr).
        now apply negb_true_iff, N.eqb_neq.
    + intros q. rewrite filter_In, negb_true_iff.
      rewrite <- not_true_iff_false, Hgone. reflexivity.
    + intros a. rewrite filter_In, negb_true_iff.
      rewrite <- not_true_iff_false, Hgone. reflexivity.
Qed.

Lemma department_deleted_with_its_rows_witness :
  exists d',
    run (handleDelete 10%N
           (Some {| d_id := 100%N; d_hospital_id := Some 1%N;
                    avg_time_per_patient := Some 15 |}) true) first_called
    = (inr department_deleted, d')
    /\ departments d' = [] /\ queue_status d' = [] /\ appointments d' = [].
Proof.
  destruct (department_deleted_with_its_rows 10%N
              {| d_id := 100%N; d_hospital_id := Some 1%N;
                 avg_time_per_patient := Some 15 |} first_called)
    as (d' & Hrun & _).
  - intros r [<-|[]] _. apply is_hospital_admin_spec. reflexivity.
  - eexists. split; [left; reflexivity|reflexivity].
  - exists d'. split; [exact Hrun|].
    revert Hrun. vm_compute. intros [= <-]. repeat split.
Defined.

(** ** Tracking one appointment *)

Lemma filter_andb {R} (f g : R -> bool) (t : list R) :
  filter (fun x => f x && g x) t = filter f (filter g t).
Proof.
  induction t as [|x t IH]; simpl; [reflexivity|].
  destruct (g x); simpl; rewrite ?andb_true_r, ?andb_false_r, IH; reflexivity.
Qed.

Lemma can_read_spec uid d a :
  can_read uid d a = true
  <-> a_user_id a = Some uid \/ administers (Some uid) (a_hospital_id a) d.
Proof.
  unfold can_read. rewrite orb_true_iff, holds_eq_uuid, manages_spec. split.
  - intros [(v & Hv & [= <-])|H]; auto.
  - intros [H|H]; eauto.
Qed.

(** X15: [fetchAppointmentDetails] tracks the appointment with the given id
    when it belongs to the signed-in user or to a hospital the user
    administers; for any other user the row is hidden by the policy and the
    tracker is left as it was. *)
Theorem appointment_details_by_policy uid appointmentId s d a :
  filter (fun b => N.eqb (a_id b) appointmentId) (appointments d) = [a] ->
  (a_user_id a = Some uid \/ administers (Some uid) (a_hospital_id a) d ->
   exists s',
     run (fetchAppointmentDetails uid appointmentId s) d = (inr s', d)
     /\ tracked s' = Some (embed d a))
  /\ (a_user_id a <> Some uid -> ~ administers (Some uid) (a_hospital_id a) d ->
      run (fetchAppointmentDetails uid appointmentId s) d = (inr s, d)).
Proof.
  intros Hpk.
  assert (Hsel : filter (fun b => can_read uid d b && N.eqb (a_id b) appointmentId)
                        (appointments d)
                 = if can_read uid d a then [a] else []).
  { rewrite filter_andb, Hpk. cbn [filter]. now destruct (can_read uid d a). }
  split.
  - intros Hread. apply can_read_spec in Hread.
    unfold fetchAppointmentDetails, select_appointment. cbn [run].
    rewrite Hsel, Hread.
    destruct (fetchQueueStatus_tracked
                (a_hospital_id (appointment (embed d a)))
                (a_department_id (appointment (embed d a)))
                {| tracked := Some (embed d a); queueStatus := queueStatus s |} d)
      as (s' & Hrun & Htr).
    exists s'. split; [exact Hrun|exact Htr].
  - intros Hu Hadm.
    assert (Hread : can_read uid d a = false).
    { destruct (can_read uid d a) eqn:E; [|reflexivity].
      apply can_read_spec in E. tauto. }
    unfold fetchAppointmentDetails, select_appointment. cbn [run].
    rewrite Hsel, Hread. reflexivity.
Qed.

Lemma appointment_details_by_policy_witness :
  (exists s',
     run (fetchAppointmentDetails 10%N 3001%N {| tracked := None; queueStatus := None |})
         first_called = (inr s', first_called)
     /\ tracked s' = Some (embed first_called (booked_row 1 1 ready)))
  /\ run (fetchAppointmentDetails 20%N 3001%N {| tracked := None; queueStatus := None |})
         first_called
     = (inr {| tracked := None; queueStatus := None |}, first_called).
Proof.
  split.
  - apply (appointment_details_by_policy 10%N 3001%N _ first_called
             (booked_row 1 1 ready)); [reflexivity|]. now left.
  - apply (appointment_details_by_policy 20%N 3001%N _ first_called
             (booked_row 1 1 ready)); [reflexivity|discriminate|].
    intros H%is_hospital_admin_spec. discriminate.
Defined.

(** The department a queue record belongs to is embedded in every
    appointment of it, when the record's foreign key holds. *)
Lemma embedded_department d a q h p :
  references d_id (departments d) (q_department_id q) = true ->
  Sql.select (queue_of (Some p) (Some h)) (queue_status d) = [q] ->
  a_department_id a = Some p ->
  exists r, department (embed d a) = Some r.
Proof.
  intros Hfk Hsel Hp.
  assert (Hq : In q (Sql.select (queue_of (Some p) (Some h)) (queue_status d)))
    by (rewrite Hsel; now left).
  apply filter_In in Hq. destruct Hq as [_ Hq].
  apply queue_of_holds in Hq. destruct Hq as (p0 & h0 & [= <-] & _ & Hqp & _).
  rewrite Hqp in Hfk. cbn in Hfk. apply existsb_exists in Hfk.
  destruct Hfk as (r & Hr & E). apply N.eqb_eq in E.
  unfold embed. cbn [department]. rewrite Hp.
  destruct (Sql.select _ (departments d)) as [|r' t] eqn:Hs.
  - exfalso.
    assert (Hin : In r (Sql.select (fun r => Sql.eq_uuid (Some (d_id r)) (Some p))
                                   (departments d))).
    { apply filter_In. split; [assumption|]. apply holds_eq_uuid.
      exists p. split; [now rewrite E|reflexivity]. }
    rewrite Hs in Hin. destruct Hin.
  - exists r'. reflexivity.
Qed.

Lemma wait_time_after_fetch d a s0 :
  (forall q, In q (queue_status d) ->
             references d_id (departments d) (q_department_id q) = true) ->
  queueStatus s0 = None ->
  tracked s0 = Some (embed d a) ->
  exists s',
    run (fetchQueueStatus (a_hospital_id a) (a_department_id a) s0) d = (inr s', d)
    /\ tracked s' = tracked s0
    /\ exists w, getEstimatedWaitTime s' = Some w.
Proof.
  intros Hfk Hq0 Htr.
  destruct (a_hospital_id a) as [h|] eqn:Hh, (a_department_id a) as [p|] eqn:Hp;
    try (exists s0; split; [reflexivity|]; split; [reflexivity|];
         exists 0; unfold getEstimatedWaitTime; rewrite Hq0;
         now destruct (tracked s0)).
  rewrite fetchQueueStatus_run.
  destruct (Sql.select (queue_of (Some p) (Some h)) (queue_status d))
    as [|q [|q' t]] eqn:Hsel.
  - eexists. split; [reflexivity|]. split; [reflexivity|].
    exists 0. unfold getEstimatedWaitTime. cbn [tracked queueStatus].
    now destruct (tracked s0).
  - eexists. split; [reflexivity|]. split; [reflexivity|].
    unfold getEstimatedWaitTime. cbn [tracked queueStatus]. rewrite Htr.
    destruct (embedded_department d a q h p) as (r & Hr); try assumption.
    + apply Hfk.
      assert (Hq : In q (Sql.select (queue_of (Some p) (Some h)) (queue_status d)))
        by (rewrite Hsel; now left).
      now apply filter_In in Hq.
    + rewrite Hr. eexists. reflexivity.
  - eexists. split; [reflexivity|]. split; [reflexivity|].
    exists 0. unfold getEstimatedWaitTime. cbn [tracked queueStatus].
    now destruct (tracked s0).
Qed.

(** X16: when every queue record points to an existing department, the
    tracker loaded by [fetchAppointmentDetails] or [fetchLatestAppointment]
    from a state without queue status never reads a field of a null
    department: [getEstimatedWaitTime] returns a number. *)
Theorem wait_time_defined_after_loading user uid appointmentId s d :
  (forall q, In q (queue_status d) ->
             references d_id (departments d) (q_department_id q) = true) ->
  queueStatus s = None ->
  (exists s', run (fetchAppointmentDetails uid appointmentId s) d = (inr s', d)
              /\ exists w, getEstimatedWaitTime s' = Some w)
  /\ (exists s', run (fetchLatestAppointment user s) d = (inr s', d)
                 /\ exists w, getEstimatedWaitTime s' = Some w).
Proof.
  intros Hfk Hq0.
  assert (Hsame : exists w, getEstimatedWaitTime s = Some w).
  { exists 0. unfold getEstimatedWaitTime. rewrite Hq0. now destruct (tracked s). }
  split.
  - unfold fetchAppointmentDetails, select_appointment. cbn [run].
    destruct (filter _ (appointments d)) as [|a [|a' t]]; cbn [run];
      try (exists s; split; [reflexivity|exact Hsame]).
    destruct (wait_time_after_fetch d a
                {| tracked := Some (embed d a); queueStatus := queueStatus s |})
      as (s' & Hrun & _ & Hw); try assumption; try reflexivity.
    exists s'. split; assumption.
  - destruct user as [u|]; [|exists s; split; [reflexivity|exact Hsame]].
    unfold fetchLatestAppointment, select_active_appointments. cbn [run].
    destruct (order_by_desc created_at _) as [|a t]; cbn [map hd_error];
      [exists s; split; [reflexivity|exact Hsame]|].
    destruct (wait_time_after_fetch d a
                {| tracked := Some (embed d a); queueStatus := queueStatus s |})
      as (s' & Hrun & _ & Hw); try assumption; try reflexivity.
    exists s'. split; assumption.
Qed.

Lemma wait_time_defined_after_loading_witness :
  (exists s',
      run (fetchAppointmentDetails 10%N 3002%N {| tracked := None; queueStatus := None |})
          late_booking = (inr s', late_booking)
      /\ exists w, getEstimatedWaitTime s' = Some w)
  /\ (exists s',
         run (fetchLatestAppointment (Some 10%N) {| tracked := None; queueStatus := None |})
             late_booking = (inr s', late_booking)
         /\ exists w, getEstimatedWaitTime s' = Some w).
Proof.
  apply wait_time_defined_after_loading.
  - intros q [<-|[]]. reflexivity.
  - reflexivity.
Defined.
